(** * fhirkit.ValueSet: composition, expansion and membership of FHIR value sets

    A shallow embedding of [src/fhirkit/ValueSet.py].  The pydantic models are
    records, one module per class so that the fields keep their names.  The
    methods of [ValueSet] mutate [self] and raise exceptions, so they live in a
    small state-and-exception monad over the object they are called on.
    Method resolution on [self] ([expand], [validate_code]) is a type class
    with one instance per Python class. *)

From Stdlib Require Import ZArith List String Ascii Bool Lia.
Import ListNotations.

Local Open Scope Z_scope.

(** ** Python values and exceptions *)

(** The exceptions the module can raise.  [AssertionError] and [UserWarning]
    carry the message written in the source; the others are raised by the
    interpreter (attribute access on [None], unpacking an empty iterable, a
    keyword argument passed twice, a [__len__] result out of range) and by
    pydantic (a model constructed from values its fields refuse). *)
Inductive PyExc : Type :=
| AssertionError (msg : string)
| AttributeError
| ValueError
| TypeError
| NotImplementedError
| UserWarning (msg : string)
| ValidationError
| OverflowError.

(** What a call does: it returns a value or it propagates an exception. *)
Inductive Outcome (A : Type) : Type :=
| Return (a : A)
| Raise (e : PyExc).
Arguments Return {A} a.
Arguments Raise {A} e.

(** A call that hands control back to its caller with a value. *)
Definition returns_normally {A : Type} (o : Outcome A) : bool :=
  match o with
  | Return _ => true
  | Raise _ => false
  end.

(** A method of an object of type [S]: it reads and updates the object and
    either returns or raises.  The object left behind by a raising call is the
    object as mutated up to the [raise]. *)
Definition Py (S A : Type) : Type := S -> Outcome A * S.

Definition ret {S A : Type} (a : A) : Py S A := fun s => (Return a, s).

Definition raise {S A : Type} (e : PyExc) : Py S A := fun s => (Raise e, s).

Definition bind {S A B : Type} (m : Py S A) (k : A -> Py S B) : Py S B :=
  fun s =>
    match m s with
    | (Return a, s') => k a s'
    | (Raise e, s') => (Raise e, s')
    end.

Definition get {S : Type} : Py S S := fun s => (Return s, s).

Definition put {S : Type} (s : S) : Py S unit := fun _ => (Return tt, s).

Declare Scope py_scope.
Delimit Scope py_scope with py.
Notation "x <- m ;; k" := (bind m (fun x => k))
  (at level 61, m at next level, right associativity) : py_scope.
Notation "m ;; k" := (bind m (fun _ => k))
  (at level 61, right associativity) : py_scope.
Local Open Scope py_scope.

(** [assert cond, msg] *)
Definition py_assert {S : Type} (cond : bool) (msg : string) : Py S unit :=
  if cond then ret tt else raise (AssertionError msg).

(** [any(f(x) for x in l)]: the generator is consumed left to right and
    [any] stops at the first true element. *)
Fixpoint py_any {S A : Type} (f : A -> Py S bool) (l : list A) : Py S bool :=
  match l with
  | [] => ret false
  | x :: rest => b <- f x ;; if b then ret true else py_any f rest
  end.

(** An [Iterable] argument: a sequence (list, tuple), which yields its items
    each time it is iterated, or an iterator (a generator), which yields them
    once and nothing afterwards. *)
Inductive PyIterable (A : Type) : Type :=
| Sequence (items : list A)
| Iterator (items : list A).
Arguments Sequence {A} items.
Arguments Iterator {A} items.

(** What iterating [it] to its end yields, when it has been iterated to its
    end [passes] times before. *)
Definition iterate {A : Type} (it : PyIterable A) (passes : nat) : list A :=
  match it, passes with
  | Sequence items, _ => items
  | Iterator items, O => items
  | Iterator _, S _ => []
  end.

(** [sys.maxsize] of a 64-bit interpreter. *)
Definition sys_maxsize : Z := 2 ^ 63 - 1.

(** What the builtin [len] makes of the integer [n] that [__len__] returned:
    an integer that does not fit the index type is an [OverflowError], a
    negative one a [ValueError]. *)
Definition len_result (n : Z) : Outcome Z :=
  if (n <? - sys_maxsize - 1) || (sys_maxsize <? n) then Raise OverflowError
  else if n <? 0 then Raise ValueError
  else Return n.

(** [a or b] on an [Optional[int]] left operand: [None] and [0] are falsy. *)
Definition py_or (a : option Z) (b : Z) : Z :=
  match a with
  | None => b
  | Some n => if n =? 0 then b else n
  end.

(** [str(x)] of an optional string: [None] prints as the word None. *)
Definition py_str (x : option string) : string :=
  match x with
  | Some s => s
  | None => "None"%string
  end.

Definition option_eqb {A : Type} (eqb : A -> A -> bool) (x y : option A) : bool :=
  match x, y with
  | Some a, Some b => eqb a b
  | None, None => true
  | _, _ => false
  end.

(** ** The data model *)

Definition HttpUrl : Type := string.
Definition AnyUrl : Type := string.
Definition Uri : Type := string.
Definition date : Type := Z.
Definition dateTime : Type := Z.

(** Modelled from the spec: [Coding] is declared in fhirkit.elements, which is
    not among the sources.  Its fields are the four the constructor of
    [SimpleValueSet] reads, its system any URI; its equality is the spec's:
    equality of (system, code), display and designations not being part of
    identity. *)
Module Coding.
Record t : Type := mk
  { display : option string;
    code : string;
    system : option Uri;
    version : option string }.

Definition __eq__ (self other : t) : bool :=
  option_eqb String.eqb (system self) (system other)
  && String.eqb (code self) (code other).
End Coding.

(** Modelled from the spec: [CodeableConcept] (fhirkit.elements) is a bundle
    of alternative codings plus optional free text. *)
Module CodeableConcept.
Record t : Type := mk
  { coding : list Coding.t;
    text : option string }.
End CodeableConcept.

(** Modelled from the spec: [Narrative] (fhirkit.elements) is a free-text
    block and is not among the sources.  A narrative has two required
    fields, [status] and [div]; as for every pydantic model, the constructor
    raises [ValidationError] when a required field is not passed. *)
Module Narrative.
Record t : Type := mk
  { status : string;
    div : string }.

(** [Narrative(status=..., div=...)], [None] for a keyword that is not
    passed. *)
Definition create (status div : option string) : Outcome t :=
  match status, div with
  | Some s, Some d => Return (mk s d)
  | _, _ => Raise ValidationError
  end.
End Narrative.

Module VSDesignation.
Record t : Type := mk
  { language : option string;
    use : option Coding.t;
    value : string }.
End VSDesignation.

Module VSConcept.
Record t : Type := mk
  { code : string;
    display : option string;
    designation : list VSDesignation.t }.
End VSConcept.

Inductive FilterOp : Type :=
| op_eq | op_is_a | op_descendent_of | op_is_not_a | op_regex | op_in
| op_not_in | op_generalizes | op_child_of | op_descendent_leaf | op_exists.

Module VSFilter.
Record t : Type := mk
  { property : string;
    op : FilterOp;
    value : string }.
End VSFilter.

Module VSInclude.
Record t : Type := mk
  { system : option HttpUrl;
    version : option string;
    concept : list VSConcept.t;
    filter : list VSFilter.t;
    valueSet : list HttpUrl }.
End VSInclude.

Module VSCompose.
Record t : Type := mk
  { include : list VSInclude.t;
    exclude : list VSInclude.t;
    property : list string;
    lockedDate : option date;
    inactive : option bool }.

(** [self.include.append(rule)] *)
Definition include_append (self : t) (rule : VSInclude.t) : t :=
  mk (include self ++ [rule]) (exclude self) (property self)
     (lockedDate self) (inactive self).
End VSCompose.

(** [class VSCodingWithDesignation(Coding)]: the inherited fields are the
    [Coding] part, and an instance is used as a [Coding] wherever one is
    expected. *)
Module VSCodingWithDesignation.
Record t : Type := mk
  { base :> Coding.t;
    designation : list VSDesignation.t }.

(** pydantic's coercion of an instance into the [VSConcept] field of an
    include rule: the fields [VSConcept] declares are kept, the others
    dropped. *)
Definition as_VSConcept (c : t) : VSConcept.t :=
  VSConcept.mk (Coding.code c) (Coding.display c) (designation c).
End VSCodingWithDesignation.

Coercion VSCodingWithDesignation.base : VSCodingWithDesignation.t >-> Coding.t.

(** [VSInclude(system=system, concept=codes)] as pydantic constructs it.  The
    field [system] is an [Optional[HttpUrl]]: [None] is accepted, a string is
    accepted when pydantic's [HttpUrl] validation accepts it, and refused
    with [ValidationError] otherwise.  pydantic is not part of the
    repository: its validation is the parameter [HttpUrl_valid].  The items
    of [concept] are coerced to [VSConcept]; the other fields take their
    defaults. *)
Definition new_VSInclude (HttpUrl_valid : Uri -> bool) (system : option Uri)
    (codes : list VSCodingWithDesignation.t) : Outcome VSInclude.t :=
  match system with
  | Some s =>
      if HttpUrl_valid s
      then Return (VSInclude.mk (Some s) None
                     (map VSCodingWithDesignation.as_VSConcept codes) [] [])
      else Raise ValidationError
  | None =>
      Return (VSInclude.mk None None
                (map VSCodingWithDesignation.as_VSConcept codes) [] [])
  end.

Module VSExpansion.
Record t : Type := mk
  { offset : option Z;
    total : option Z;
    contains : list VSCodingWithDesignation.t;
    identifier : option AnyUrl;
    timestamp : dateTime }.

(** [VSExpansion()]: every optional field absent, no concept, and the
    timestamp produced by the default factory [datetime.now]. *)
Definition default (now : dateTime) : t := mk None None [] None now.

(** [self.contains.extend(codes)]; [append(code)] is the one-element case. *)
Definition contains_extend (self : t) (codes : list VSCodingWithDesignation.t) : t :=
  mk (offset self) (total self) (contains self ++ codes)
     (identifier self) (timestamp self).
End VSExpansion.

(** What can be handed to the [in] operator and to [validate_code]: a
    [Coding] (or an instance of a subclass, through the coercion above), a
    [CodeableConcept], or any other Python value. *)
Inductive PyValue : Type :=
| PyNone
| PyInt (n : Z)
| PyStr (s : string).

Inductive Item : Type :=
| ItemCoding (c : Coding.t)
| ItemCodeableConcept (cc : CodeableConcept.t)
| ItemOther (v : PyValue).

(** ** class ValueSet *)

Module ValueSet.

(** The fields the methods touch, and [text], which the constructor of
    [SimpleValueSet] fills.  [resourceType], [useContext] and the other
    inherited metadata are constant or pass-through and carry no
    behaviour. *)
Record t : Type := mk
  { url : option AnyUrl;
    name : option string;
    compose : option VSCompose.t;
    expansion : option VSExpansion.t;
    text : option Narrative.t }.

Definition set_compose (self : t) (c : option VSCompose.t) : t :=
  mk (url self) (name self) c (expansion self) (text self).

Definition set_expansion (self : t) (e : option VSExpansion.t) : t :=
  mk (url self) (name self) (compose self) e (text self).

(** The methods a subclass overrides, looked up on the class of [self]:
    [self_expand] is the call [self.expand()], [self_validate_code] the call
    [self.validate_code(item)]. *)
Class Overrides : Type :=
  { self_expand : Py t unit;
    self_validate_code : Item -> Py t bool }.

Definition msg_no_expansion : string :=
  "ValueSet has no expansion even after running `self.expand()`.".

Definition msg_expansion_none : string :=
  "`self.expansion` is None after initialisation with `self.init_expansion`".

(** [@property has_expanded] *)
Definition has_expanded (self : t) : bool :=
  match expansion self with
  | Some _ => true
  | None => false
  end.

(** [def _expand(self)]: the body is the assertion alone. *)
Definition _expand : Py t unit :=
  self <- get ;;
  py_assert (has_expanded self) msg_no_expansion.

(** [def __iter__(self)]: a generator; what is modelled is the list of the
    codings it yields when it is run to its end.  Its body starts to run
    at the first [next], so the expansion check happens when iteration
    starts. *)
Definition __iter__ : Py t (list VSCodingWithDesignation.t) :=
  self <- get ;;
  (if negb (has_expanded self) then _expand else ret tt) ;;
  self <- get ;;
  match expansion self with
  | Some e => ret (VSExpansion.contains e)
  | None => raise AttributeError
  end.

(** [def __len__(self)] *)
Definition __len__ : Py t Z :=
  self <- get ;;
  (if negb (has_expanded self)
   then (_expand ;;
         self <- get ;;
         py_assert (has_expanded self) msg_no_expansion)
   else ret tt) ;;
  self <- get ;;
  match expansion self with
  | Some e =>
      ret (py_or (VSExpansion.total e)
                 (Z.of_nat (List.length (VSExpansion.contains e))))
  | None => raise AttributeError
  end.

(** The builtin [len(V)]: it calls [__len__] and checks the range of the
    result. *)
Definition len : Py t Z :=
  n <- __len__ ;;
  match len_result n with
  | Return k => ret k
  | Raise e => raise e
  end.

(** [def validate_code(self, code)] and [def expand(self)] of the base
    class. *)
Definition validate_code (code : Item) : Py t bool :=
  raise NotImplementedError.

Definition expand : Py t unit :=
  raise NotImplementedError.

Section Methods.

(** The class of [self]. *)
Context {cls : Overrides}.

(** pydantic's validation of an [HttpUrl]. *)
Variable HttpUrl_valid : Uri -> bool.

(** The value [datetime.now()] has while the call runs. *)
Variable now : dateTime.

(** [def __contains__(self, item)] *)
Definition __contains__ (item : Item) : Py t bool :=
  match item with
  | ItemOther _ => ret false
  | _ => self_validate_code item
  end.

(** [def init_expansion(self)] *)
Definition init_expansion : Py t unit :=
  self <- get ;;
  put (set_expansion self (Some (VSExpansion.default now))).

(** [self.compose.include.append(VSInclude(system=system, concept=codes))]:
    the attribute chain is evaluated first, so an absent composition raises
    [AttributeError] before the rule is built; then the rule is built, and
    a system that pydantic refuses raises [ValidationError] before anything
    is added. *)
Definition compose_include_append (system : option Uri)
    (codes : list VSCodingWithDesignation.t) : Py t unit :=
  self <- get ;;
  match compose self with
  | None => raise AttributeError
  | Some c =>
      match new_VSInclude HttpUrl_valid system codes with
      | Raise e => raise e
      | Return rule =>
          put (set_compose self (Some (VSCompose.include_append c rule)))
      end
  end.

(** [def append(self, code, extend_compose=True, init_expansion_if_none=True)] *)
Definition append (code : VSCodingWithDesignation.t)
    (extend_compose init_expansion_if_none : bool) : Py t unit :=
  (if extend_compose
   then compose_include_append (Coding.system code) [code]
   else ret tt) ;;
  self <- get ;;
  (if negb (has_expanded self) && init_expansion_if_none
   then init_expansion
   else ret tt) ;;
  self <- get ;;
  match expansion self with
  | None => raise (AssertionError msg_expansion_none)
  | Some e =>
      put (set_expansion self
             (Some (VSExpansion.contains_extend e [code])))
  end.

(** [def extend(self, codes, extend_compose=True, init_expansion_if_none=True)]
    on any iterable.  With [extend_compose] the body iterates [codes] three
    times: [first_code, *_ = iter(codes)], which raises [ValueError] when
    nothing is yielded, then [list(codes)], then [contains.extend(codes)];
    without it only the last iteration happens. *)
Definition extend_iterable (codes : PyIterable VSCodingWithDesignation.t)
    (extend_compose init_expansion_if_none : bool) : Py t unit :=
  (if extend_compose
   then
     match iterate codes 0 with
     | [] => raise ValueError
     | first_code :: _ =>
         compose_include_append (Coding.system first_code) (iterate codes 1)
     end
   else ret tt) ;;
  self <- get ;;
  (if has_expanded self && init_expansion_if_none
   then init_expansion
   else ret tt) ;;
  self <- get ;;
  match expansion self with
  | None => raise (AssertionError msg_expansion_none)
  | Some e =>
      put (set_expansion self
             (Some (VSExpansion.contains_extend e
                      (iterate codes (if extend_compose then 2 else 0)))))
  end.

(** [extend] on a sequence, the argument the spec gives it. *)
Definition extend (codes : list VSCodingWithDesignation.t)
    (extend_compose init_expansion_if_none : bool) : Py t unit :=
  extend_iterable (Sequence codes) extend_compose init_expansion_if_none.

End Methods.

(** The operator [item in V]. *)
Definition py_in {cls : Overrides} (item : Item) : Py t bool :=
  __contains__ item.

(** The class [ValueSet] itself. *)
Definition Base : Overrides :=
  {| self_expand := expand; self_validate_code := validate_code |}.

End ValueSet.

(** ** class SimpleValueSet(ValueSet) *)

Module SimpleValueSet.

(** The keyword arguments the constructor forwards to the pydantic
    constructor of [ValueSet]; [None] stands for a key that is not
    passed. *)
Record Kwargs : Type := mkKwargs
  { kw_url : option AnyUrl;
    kw_name : option string;
    kw_compose : option VSCompose.t;
    kw_expansion : option VSExpansion.t;
    kw_text : option Narrative.t }.

Definition no_kwargs : Kwargs := mkKwargs None None None None None.

Definition msg_expansion_kwarg : string :=
  "When passing an iterable with concepts, `expansion` should be None.".

Definition msg_already_expanded : string :=
  "SimpleValueSet is already expanded at construction time. So it doesn't make sense to explicitly ask for expansion.".

Definition nl : string := String (ascii_of_nat 10) EmptyString.
Definition dq : string := String (ascii_of_nat 34) EmptyString.

(** The two literal halves of the narrative table, line by line. *)
Definition div_head : string :=
  String.concat nl
    [ EmptyString;
      "                <div>";
      "                    <style scoped>";
      "                        .dataframe tbody tr th:only-of-type {";
      "                            vertical-align: middle;";
      "                        }";
      EmptyString;
      "                        .dataframe tbody tr th {";
      "                            vertical-align: top;";
      "                        }";
      EmptyString;
      "                        .dataframe thead th {";
      "                            text-align: right;";
      "                        }";
      "                    </style>";
      String.concat dq
        [ "                    <table border="; "1"; " class="; "dataframe"; ">" ];
      "                        <thead>";
      String.concat dq
        [ "                            <tr style="; "text-align: right;"; ">" ];
      "                            <th>code</th>";
      "                            <th>display</th>";
      "                            <th>system</th>";
      "                            <th>version</th>";
      "                            </tr>";
      "                        </thead>";
      "                        <tbody>" ]%string.

Definition div_tail : string :=
  String.concat nl
    [ EmptyString;
      "                        </tbody>";
      "                    </table>";
      "                </div>" ]%string.

(** The f-string that renders one concept as a table row. *)
Definition div_row (c : VSCodingWithDesignation.t) : string :=
  String.concat EmptyString
    [ "<tr><th>"; Coding.code c; "</th><td>"; py_str (Coding.display c);
      "</td><td>"; py_str (Coding.system c); "</td><td>";
      py_str (Coding.version c); "</td></tr>" ]%string.

(** The expansion the constructor prepares from its positional concepts:
    [VSExpansion(contains=[c.dict() for c in args], total=len(args))]
    ([c.dict()] is read back by pydantic into the same concept). *)
Definition expansion_of_args (now : dateTime)
    (args : list VSCodingWithDesignation.t) : VSExpansion.t :=
  VSExpansion.mk None (Some (Z.of_nat (List.length args))) args None now.

(** The narrative table of the positional concepts. *)
Definition div_of_args (args : list VSCodingWithDesignation.t) : string :=
  (div_head ++ String.concat EmptyString (map div_row args) ++ div_tail)%string.

(** [def __init__(self, *args, **kwargs)].  With positional concepts: the
    assertion on the keywords, then the arguments of the call to the parent
    constructor in order, the expansion and the narrative, which is
    constructed from [div] alone, and then the call itself, which receives
    [text] twice when the caller passes it too.  Without positional concepts
    the keywords alone build the object. *)
Definition __init__ (now : dateTime) (args : list VSCodingWithDesignation.t)
    (kwargs : Kwargs) : Outcome ValueSet.t :=
  if (0 <? List.length args)%nat
  then
    match kw_expansion kwargs with
    | Some _ => Raise (AssertionError msg_expansion_kwarg)
    | None =>
        let expansion := expansion_of_args now args in
        match Narrative.create None (Some (div_of_args args)) with
        | Raise e => Raise e
        | Return text =>
            match kw_text kwargs with
            | Some _ => Raise TypeError
            | None =>
                Return
                  (ValueSet.mk (kw_url kwargs) (kw_name kwargs)
                     (kw_compose kwargs) (Some expansion) (Some text))
            end
        end
    end
  else
    Return
      (ValueSet.mk (kw_url kwargs) (kw_name kwargs) (kw_compose kwargs)
         (kw_expansion kwargs) (kw_text kwargs)).

(** [def expand(self)]: a [raise] statement. *)
Definition expand : Py ValueSet.t unit :=
  raise (UserWarning msg_already_expanded).

(** [def validate_code(self, code)], with the class of [self] left open:
    the [CodeableConcept] branch evaluates [c in self], which goes back
    through [__contains__] to the [validate_code] of the class of
    [self]. *)
Definition validate_code_in (cls : ValueSet.Overrides) (code : Item)
    : Py ValueSet.t bool :=
  match code with
  | ItemCodeableConcept cc =>
      py_any (fun c => ValueSet.py_in (cls := cls) (ItemCoding c))
             (CodeableConcept.coding cc)
  | ItemCoding code =>
      codings <- ValueSet.__iter__ ;;
      ret (existsb (fun c : VSCodingWithDesignation.t => Coding.__eq__ c code)
                   codings)
  | ItemOther _ => ret false
  end.

(** The inner call always passes a [Coding], and the [Coding] branch calls
    nothing on [self] but [__iter__]: one unrolling closes the recursion
    (lemma [validate_code_unfold] below is the equation of the source). *)
Definition validate_code : Item -> Py ValueSet.t bool :=
  validate_code_in
    {| ValueSet.self_expand := expand;
       ValueSet.self_validate_code := validate_code_in ValueSet.Base |}.

(** The class [SimpleValueSet]. *)
Definition Class : ValueSet.Overrides :=
  {| ValueSet.self_expand := expand;
     ValueSet.self_validate_code := validate_code |}.

End SimpleValueSet.

(** The subclass sketched in the docstring of [ValueSet.expand]
    ([class MyCustomValueSet(ValueSet)] with its own [expand]): here the
    expansion logic fills [expansion.contains] with a fixed list of concepts,
    as the docstring asks of an override. *)
Module MyCustomValueSet.

Definition expand (now : dateTime) (concepts : list VSCodingWithDesignation.t)
    : Py ValueSet.t unit :=
  self <- get ;;
  put (ValueSet.set_expansion self
         (Some (VSExpansion.contains_extend (VSExpansion.default now) concepts))).

Definition Class (now : dateTime) (concepts : list VSCodingWithDesignation.t)
    : ValueSet.Overrides :=
  {| ValueSet.self_expand := expand now concepts;
     ValueSet.self_validate_code := ValueSet.validate_code |}.

End MyCustomValueSet.

(** ** Properties the claims speak of *)

(** The identity of a concept: its (system, code) pair. *)
Definition key (c : Coding.t) : option HttpUrl * string :=
  (Coding.system c, Coding.code c).



(** ** Concrete objects *)

Module Sample.

Definition coding (system code : string) : VSCodingWithDesignation.t :=
  VSCodingWithDesignation.mk (Coding.mk None code (Some system) None) [].

Definition xA : VSCodingWithDesignation.t := coding "http://x.org" "A".
Definition xB : VSCodingWithDesignation.t := coding "http://x.org" "B".
Definition xC : VSCodingWithDesignation.t := coding "http://x.org" "C".
Definition yA : VSCodingWithDesignation.t := coding "http://y.org" "A".

(** A concept whose system is a URI that is no [HttpUrl]: the host has no
    top-level domain. *)
Definition zA : VSCodingWithDesignation.t := coding "http://z" "A".

(** A validator in the role of pydantic's [HttpUrl] for the sample systems:
    scheme http or https, and a host that has a dot and a top-level domain
    after it. *)
Definition host_has_tld (rest : string) : bool :=
  let host := match index 0 "/" rest with
              | Some i => substring 0 i rest
              | None => rest
              end in
  match index 0 "." host with
  | Some i => (0 <? i)%nat && (i + 1 <? String.length host)%nat
  | None => false
  end.

Definition HttpUrl_valid (s : Uri) : bool :=
  if prefix "http://" s then host_has_tld (substring 7 (String.length s - 7) s)
  else if prefix "https://" s then host_has_tld (substring 8 (String.length s - 8) s)
  else false.

Definition no_rules : VSCompose.t := VSCompose.mk [] [] [] None None.

(** [ValueSet()] : neither composition nor expansion. *)
Definition bare : ValueSet.t := ValueSet.mk None None None None None.

(** [ValueSet(compose=VSCompose(include=[]))] *)
Definition composed : ValueSet.t :=
  ValueSet.mk None None (Some no_rules) None None.

(** [ValueSet(compose=VSCompose(include=[]), expansion=VSExpansion(contains=[xA]))],
    the expansion stamped at time 7. *)
Definition expanded : ValueSet.t :=
  ValueSet.mk None None (Some no_rules)
    (Some (VSExpansion.mk None None [xA] None 7)) None.

(** An expansion that announces a total of 0 and holds two concepts. *)
Definition total_zero : ValueSet.t :=
  ValueSet.mk None None None
    (Some (VSExpansion.mk None (Some 0) [xA; xB] None 7)) None.

(** Keywords that carry the expansion the constructor prepares from
    [xA, xB]. *)
Definition kw_enumerated : SimpleValueSet.Kwargs :=
  SimpleValueSet.mkKwargs None None None
    (Some (SimpleValueSet.expansion_of_args 0 [xA; xB])) None.

(** [SimpleValueSet(expansion=VSExpansion(contains=[xA, xB], total=2))] *)
Definition enumerated : ValueSet.t :=
  match SimpleValueSet.__init__ 0 [] kw_enumerated with
  | Return V => V
  | Raise _ => bare
  end.

End Sample.

(** ** Notions used by the further properties *)

(** [any(c == x for c in codings)]: [x] is listed among [codings]. *)
Definition listed (codings : list VSCodingWithDesignation.t) (x : Coding.t) : bool :=
  existsb (fun c : VSCodingWithDesignation.t => Coding.__eq__ c x) codings.

(** The include rule [append] and [extend] build:
    [VSInclude(system=system, concept=codes)]. *)
Definition include_rule (system : option Uri)
    (codes : list VSCodingWithDesignation.t) : VSInclude.t :=
  VSInclude.mk system None (map VSCodingWithDesignation.as_VSConcept codes) [] [].

(** pydantic accepts [system] for the field [VSInclude.system]: it is absent
    or a valid [HttpUrl]. *)
Definition system_accepted (HttpUrl_valid : Uri -> bool) (system : option Uri)
    : bool :=
  match system with
  | Some s => HttpUrl_valid s
  | None => true
  end.

(** The expansion a mutation starts from: the one the value set has, or
    the fresh one [init_expansion] would store at time [now]. *)
Definition expansion_or_fresh (now : dateTime) (V : ValueSet.t) : VSExpansion.t :=
  match ValueSet.expansion V with
  | Some e => e
  | None => VSExpansion.default now
  end.

Module Fixture.

(** An expansion that announces 5 concepts and holds one page of two. *)
Definition page : VSExpansion.t :=
  VSExpansion.mk (Some 0) (Some 5) [Sample.xA; Sample.xB] None 7.

Definition paged : ValueSet.t :=
  ValueSet.mk None None (Some Sample.no_rules) (Some page) None.

(** Two codings for one concept, the second one in [Sample.expanded]. *)
Definition concept_yA_xA : CodeableConcept.t :=
  CodeableConcept.mk [Sample.yA : Coding.t; Sample.xA : Coding.t] None.


(** Keywords that carry an expansion. *)
Definition kw_expanded : SimpleValueSet.Kwargs :=
  SimpleValueSet.mkKwargs None None None (Some page) None.

(** [SimpleValueSet(expansion=VSExpansion(contains=[xA], total=1))]: the
    expansion the constructor prepares from [xA], passed by keyword. *)
Definition kw_one : SimpleValueSet.Kwargs :=
  SimpleValueSet.mkKwargs None None None
    (Some (SimpleValueSet.expansion_of_args 0 [Sample.xA])) None.


End Fixture.

(** What a mutation may do to a value set: identity metadata and narrative
    are kept, an expansion is never removed, a composition is neither created
    nor dropped, and a composition changes only by include rules added at the
    end. *)
Definition grows_only (self V' : ValueSet.t) : Prop :=
  ValueSet.url V' = ValueSet.url self
  /\ ValueSet.name V' = ValueSet.name self
  /\ ValueSet.text V' = ValueSet.text self
  /\ (ValueSet.has_expanded self = true -> ValueSet.has_expanded V' = true)
  /\ match ValueSet.compose self, ValueSet.compose V' with
     | None, None => True
     | Some c, Some c' =>
         VSCompose.exclude c' = VSCompose.exclude c
         /\ VSCompose.property c' = VSCompose.property c
         /\ VSCompose.lockedDate c' = VSCompose.lockedDate c
         /\ VSCompose.inactive c' = VSCompose.inactive c
         /\ exists rules, VSCompose.include c' = VSCompose.include c ++ rules
     | _, _ => False
     end.

(** [for code in codes: self.append(code, extend_compose, init)] *)
Fixpoint append_each (HttpUrl_valid : Uri -> bool) (now : dateTime)
    (codes : list VSCodingWithDesignation.t)
    (extend_compose init : bool) : Py ValueSet.t unit :=
  match codes with
  | [] => ret tt
  | code :: rest =>
      ValueSet.append HttpUrl_valid now code extend_compose init ;;
      append_each HttpUrl_valid now rest extend_compose init
  end.

(** * Theorems *)

(** ** The monad and the helpers *)

Lemma bind_ret_l {S A B : Type} (a : A) (k : A -> Py S B) (s : S) :
  bind (ret a) k s = k a s.
Proof. reflexivity. Qed.

Lemma bind_raise_l {S A B : Type} (e : PyExc) (k : A -> Py S B) (s : S) :
  bind (raise e) k s = (Raise e, s).
Proof. reflexivity. Qed.

Lemma bind_assoc {S A B C : Type} (m : Py S A) (k : A -> Py S B)
    (h : B -> Py S C) (s : S) :
  bind (bind m k) h s = bind m (fun a => bind (k a) h) s.
Proof.
  unfold bind. destruct (m s) as [[a | e] s']; reflexivity.
Qed.

(** When every test returns without touching the object, [py_any] is
    [existsb]. *)
Lemma py_any_pure {S A : Type} (f : A -> Py S bool) (g : A -> bool) (s : S) :
  (forall x, f x s = (Return (g x), s)) ->
  forall l, py_any f l s = (Return (existsb g l), s).
Proof.
  intros Hf l. induction l as [| x rest IH]; simpl.
  - reflexivity.
  - unfold bind. rewrite Hf. destruct (g x); simpl.
    + reflexivity.
    + exact IH.
Qed.

Lemma option_eqb_string_spec (x y : option string) :
  option_eqb String.eqb x y = true <-> x = y.
Proof.
  destruct x as [a |], y as [b |]; simpl.
  - rewrite String.eqb_eq. split; congruence.
  - split; discriminate.
  - split; discriminate.
  - split; reflexivity.
Qed.

(** [Coding.__eq__] is equality of keys. *)
Lemma Coding_eq_key (a b : Coding.t) :
  Coding.__eq__ a b = true <-> key a = key b.
Proof.
  unfold Coding.__eq__, key. rewrite andb_true_iff.
  rewrite option_eqb_string_spec, String.eqb_eq.
  split.
  - intros [Hs Hc]. now rewrite Hs, Hc.
  - intros H. injection H as Hs Hc. now split.
Qed.

Lemma Coding_eq_refl (a : Coding.t) : Coding.__eq__ a a = true.
Proof. now apply Coding_eq_key. Qed.


(** ** Method resolution of SimpleValueSet *)

(** The equation of the source: [validate_code] of [SimpleValueSet] is its
    body with the class of [self] being [SimpleValueSet]. *)
Lemma validate_code_unfold (code : Item) :
  SimpleValueSet.validate_code code
  = SimpleValueSet.validate_code_in SimpleValueSet.Class code.
Proof.
  destruct code as [c | cc | v]; reflexivity.
Qed.

(** ** Reads of an expanded and of an unexpanded value set *)

(** Runs a method body on an object whose [expansion] is known by [He]. *)
Ltac run_with He :=
  unfold bind, get, put, ret, raise, py_assert, ValueSet.has_expanded;
  repeat (rewrite ?He; simpl);
  try reflexivity.

Lemma iter_expanded (self : ValueSet.t) (e : VSExpansion.t) :
  ValueSet.expansion self = Some e ->
  ValueSet.__iter__ self = (Return (VSExpansion.contains e), self).
Proof.
  intros He. unfold ValueSet.__iter__. run_with He.
Qed.

Lemma iter_unexpanded (self : ValueSet.t) :
  ValueSet.expansion self = None ->
  ValueSet.__iter__ self
  = (Raise (AssertionError ValueSet.msg_no_expansion), self).
Proof.
  intros He. unfold ValueSet.__iter__, ValueSet._expand. run_with He.
Qed.

Lemma len_expanded (self : ValueSet.t) (e : VSExpansion.t) :
  ValueSet.expansion self = Some e ->
  ValueSet.__len__ self
  = (Return (py_or (VSExpansion.total e)
                   (Z.of_nat (List.length (VSExpansion.contains e)))), self).
Proof.
  intros He. unfold ValueSet.__len__. run_with He.
Qed.

(** Whatever the class of [self] and its [expand], [__len__] on a value set
    without expansion raises the assertion of [_expand] and leaves the object
    as it was: [expand] is not run. *)
Lemma len_unexpanded (self : ValueSet.t) :
  ValueSet.expansion self = None ->
  ValueSet.__len__ self
  = (Raise (AssertionError ValueSet.msg_no_expansion), self).
Proof.
  intros He. unfold ValueSet.__len__, ValueSet._expand. run_with He.
Qed.

(** Membership of a [Coding] in an expanded [SimpleValueSet]. *)
Lemma simple_in_coding (self : ValueSet.t) (e : VSExpansion.t) (x : Coding.t) :
  ValueSet.expansion self = Some e ->
  ValueSet.py_in (cls := SimpleValueSet.Class) (ItemCoding x) self
  = (Return (existsb (fun c : VSCodingWithDesignation.t => Coding.__eq__ c x)
                     (VSExpansion.contains e)), self).
Proof.
  intros He. unfold ValueSet.py_in, ValueSet.__contains__. simpl.
  unfold SimpleValueSet.validate_code, SimpleValueSet.validate_code_in, bind.
  rewrite (iter_expanded self e He). reflexivity.
Qed.

(** Membership of a [CodeableConcept]: any of its codings is a member. *)
Lemma simple_in_codeable_concept (self : ValueSet.t) (e : VSExpansion.t)
    (cc : CodeableConcept.t) :
  ValueSet.expansion self = Some e ->
  ValueSet.py_in (cls := SimpleValueSet.Class) (ItemCodeableConcept cc) self
  = (Return
       (existsb
          (fun x : Coding.t =>
             existsb (fun c : VSCodingWithDesignation.t => Coding.__eq__ c x)
                     (VSExpansion.contains e))
          (CodeableConcept.coding cc)), self).
Proof.
  intros He.
  change (SimpleValueSet.validate_code (ItemCodeableConcept cc) self = ?rhs)
    with (py_any (fun c => ValueSet.py_in (cls := SimpleValueSet.Class) (ItemCoding c))
                 (CodeableConcept.coding cc) self = rhs).
  apply py_any_pure. intros x. now apply simple_in_coding.
Qed.

(** ** The builtin len *)

Lemma len_result_fits (n : Z) :
  0 <= n <= sys_maxsize -> len_result n = Return n.
Proof.
  intros [H0 Hmax]. unfold len_result.
  assert (Hs : 0 < sys_maxsize) by reflexivity.
  destruct (Z.ltb_spec n (- sys_maxsize - 1)); [lia |].
  destruct (Z.ltb_spec sys_maxsize n); [lia |].
  destruct (Z.ltb_spec n 0); [lia | reflexivity].
Qed.

Lemma len_result_count (k : nat) :
  len_result (Z.of_nat k)
  = if Z.of_nat k <=? sys_maxsize then Return (Z.of_nat k) else Raise OverflowError.
Proof.
  destruct (Z.leb_spec (Z.of_nat k) sys_maxsize) as [Hle | Hgt].
  - apply len_result_fits. lia.
  - unfold len_result.
    assert (Hs : 0 < sys_maxsize) by reflexivity.
    destruct (Z.ltb_spec (Z.of_nat k) (- sys_maxsize - 1)); [lia |].
    destruct (Z.ltb_spec sys_maxsize (Z.of_nat k)); [reflexivity | lia].
Qed.

(** [len] is [__len__] followed by the range check. *)
Lemma len_of_len (self : ValueSet.t) (n : Z) :
  ValueSet.__len__ self = (Return n, self) ->
  ValueSet.len self = (len_result n, self).
Proof.
  intros Hlen. unfold ValueSet.len, bind. rewrite Hlen.
  destruct (len_result n); reflexivity.
Qed.

(** ** Construction of an enumerated value set *)

(** A call with positional concepts never returns a value set. *)
Lemma init_positional (now : dateTime) (args : list VSCodingWithDesignation.t)
    (kwargs : SimpleValueSet.Kwargs) :
  args <> [] ->
  SimpleValueSet.__init__ now args kwargs
  = match SimpleValueSet.kw_expansion kwargs with
    | Some _ => Raise (AssertionError SimpleValueSet.msg_expansion_kwarg)
    | None => Raise ValidationError
    end.
Proof.
  intros Hne. destruct args as [| c rest]; [contradiction |].
  unfold SimpleValueSet.__init__. simpl Nat.ltb. cbv iota.
  destruct (SimpleValueSet.kw_expansion kwargs); reflexivity.
Qed.


Lemma py_or_total_pos (n : nat) (m : Z) :
  n <> 0%nat -> py_or (Some (Z.of_nat n)) m = Z.of_nat n.
Proof.
  intros Hn. unfold py_or.
  destruct (Z.eqb_spec (Z.of_nat n) 0) as [H0 | H0]; [lia | reflexivity].
Qed.


(** The include rule [extend] adds when asked to extend the composition: one
    rule, scoped to the system of the first concept, listing every supplied
    concept in order.  It is in place whatever happens to the expansion
    afterwards. *)
Lemma extend_include_rule (HttpUrl_valid : Uri -> bool) (now : dateTime)
    (self : ValueSet.t) (c : VSCompose.t)
    (first_code : VSCodingWithDesignation.t)
    (rest : list VSCodingWithDesignation.t) (init : bool) :
  ValueSet.compose self = Some c ->
  system_accepted HttpUrl_valid (Coding.system first_code) = true ->
  ValueSet.compose
    (snd (ValueSet.extend HttpUrl_valid now (first_code :: rest) true init self))
  = Some (VSCompose.include_append c
            (VSInclude.mk (Coding.system first_code) None
               (map VSCodingWithDesignation.as_VSConcept (first_code :: rest))
               [] [])).
Proof.
  intros Hc Hok. destruct self as [u n co ex tx]. simpl in Hc. subst co.
  unfold ValueSet.extend, ValueSet.extend_iterable,
    ValueSet.compose_include_append, new_VSInclude.
  cbn [iterate]. unfold system_accepted in Hok.
  destruct (Coding.system first_code) as [s |]; [rewrite Hok |];
    destruct ex as [e |], init; reflexivity.
Qed.

(** ** Claims *)

(** C1 (the code departs from the claim).  The claim: on a value set that
    already has an expansion, [extend] appends the batch and keeps the
    concepts already there; on one without expansion, with
    [init_expansion_if_none], it starts an empty expansion and appends.
    The code, with [init_expansion_if_none=True]: on [Sample.expanded], which
    holds [xA], [extend [xB]] leaves only [xB]; on [Sample.composed], which
    has no expansion, it raises the assertion; and so with
    [extend_compose=False] as with the default [True] (the concepts' system
    is a valid [HttpUrl]).  [append], the sibling, keeps [xA] and
    initialises the expansion on the same objects.  The include rule is
    added as the claim says. *)
Theorem extend_guard_inverted :
  (exists V',
      ValueSet.extend Sample.HttpUrl_valid 9 [Sample.xB] false true Sample.expanded
      = (Return tt, V')
      /\ option_map VSExpansion.contains (ValueSet.expansion V') = Some [Sample.xB])
  /\ (exists V',
      ValueSet.append Sample.HttpUrl_valid 9 Sample.xB false true Sample.expanded
      = (Return tt, V')
      /\ option_map VSExpansion.contains (ValueSet.expansion V')
         = Some [Sample.xA; Sample.xB])
  /\ ValueSet.extend Sample.HttpUrl_valid 9 [Sample.xB] false true Sample.composed
     = (Raise (AssertionError ValueSet.msg_expansion_none), Sample.composed)
  /\ (exists V',
      ValueSet.append Sample.HttpUrl_valid 9 Sample.xB false true Sample.composed
      = (Return tt, V')
      /\ option_map VSExpansion.contains (ValueSet.expansion V') = Some [Sample.xB])
  /\ system_accepted Sample.HttpUrl_valid (Coding.system Sample.xB) = true
  /\ (exists V',
      ValueSet.extend Sample.HttpUrl_valid 9 [Sample.xB] true true Sample.expanded
      = (Return tt, V')
      /\ option_map VSExpansion.contains (ValueSet.expansion V') = Some [Sample.xB]
      /\ option_map VSCompose.include (ValueSet.compose V')
         = Some [VSInclude.mk (Some "http://x.org"%string) None
                   [VSCodingWithDesignation.as_VSConcept Sample.xB] [] []])
  /\ (exists V',
      ValueSet.append Sample.HttpUrl_valid 9 Sample.xB true true Sample.expanded
      = (Return tt, V')
      /\ option_map VSExpansion.contains (ValueSet.expansion V')
         = Some [Sample.xA; Sample.xB])
  /\ fst (ValueSet.extend Sample.HttpUrl_valid 9 [Sample.xB] true true Sample.composed)
     = Raise (AssertionError ValueSet.msg_expansion_none)
  /\ (exists V',
      ValueSet.append Sample.HttpUrl_valid 9 Sample.xB true true Sample.composed
      = (Return tt, V')
      /\ option_map VSExpansion.contains (ValueSet.expansion V') = Some [Sample.xB]).
Proof.
  repeat match goal with
         | |- _ /\ _ => split
         | |- exists _, _ => eexists
         end; reflexivity.
Qed.

(** C2 (the code departs from the claim).  The claim: [__len__] and the start
    of iteration on a value set without expansion run the [expand] of the
    class and then answer from the expansion.  The code: with the class
    [MyCustomValueSet], whose [expand] stores the one concept [xA], running
    [expand] and then [__len__] gives 1, but [__len__] alone, and [__iter__]
    alone, raise the assertion of [_expand] and leave the object without
    expansion. *)
Theorem len_does_not_run_expand :
  fst (bind (ValueSet.self_expand (Overrides := MyCustomValueSet.Class 9 [Sample.xA]))
            (fun _ => ValueSet.__len__) Sample.composed)
  = Return 1
  /\ ValueSet.__len__ Sample.composed
     = (Raise (AssertionError ValueSet.msg_no_expansion), Sample.composed)
  /\ ValueSet.__iter__ Sample.composed
     = (Raise (AssertionError ValueSet.msg_no_expansion), Sample.composed).
Proof.
  split; [| split]; reflexivity.
Qed.

(** C3 (the code departs from the claim).  The claim: [append(c)] on an
    enumerated value set makes [len] grow by one and [c] a member.  The
    code, on [SimpleValueSet(expansion=VSExpansion(contains=[xA], total=1))],
    the expansion the constructor itself prepares from [xA]: the length is
    1; [append(xB)] with the default flags raises [AttributeError], the
    composition being absent; [append(xB, extend_compose=False)] returns and
    makes [xB] a member, but the length is still 1, because [append] leaves
    [total] as it was and [__len__] prefers it. *)
Theorem append_on_enumerated_keeps_len :
  exists V,
    SimpleValueSet.__init__ 0 [] Fixture.kw_one = Return V
    /\ ValueSet.len V = (Return 1, V)
    /\ ValueSet.append Sample.HttpUrl_valid 9 Sample.xB true true V
       = (Raise AttributeError, V)
    /\ exists V',
        ValueSet.append Sample.HttpUrl_valid 9 Sample.xB false true V
        = (Return tt, V')
        /\ ValueSet.__iter__ V' = (Return [Sample.xA; Sample.xB], V')
        /\ ValueSet.__len__ V' = (Return 1, V')
        /\ ValueSet.len V' = (Return 1, V')
        /\ ValueSet.py_in (cls := SimpleValueSet.Class) (ItemCoding Sample.xB) V'
           = (Return true, V').
Proof.
  eexists. split; [reflexivity |]. split; [reflexivity |].
  split; [reflexivity |].
  eexists. repeat split; reflexivity.
Qed.







(** C6, as stated, fails: [expand()] on the enumerated value set
    [SimpleValueSet(expansion=VSExpansion(contains=[xA, xB], total=2))] does
    not hand control back to its caller, it propagates an exception. *)
Lemma simple_expand_does_not_return :
  SimpleValueSet.__init__ 0 [] Sample.kw_enumerated = Return Sample.enumerated
  /\ returns_normally (fst (SimpleValueSet.expand Sample.enumerated)) = false.
Proof.
  split; reflexivity.
Qed.

(** C6 (amended).  Calling [expand()] on an enumerated value set always
    raises [UserWarning] (the redundant-expansion warning), and nothing else:
    the call does not return, and the value set, its expansion included, is
    left unchanged. *)
Theorem simple_expand_raises_warning :
  forall self : ValueSet.t,
    ValueSet.self_expand (Overrides := SimpleValueSet.Class) self
    = (Raise (UserWarning SimpleValueSet.msg_already_expanded), self).
Proof.
  intros self. reflexivity.
Qed.

(** C7, as stated, fails: with [extend_compose=False] an empty batch on an
    expanded value set returns, without any error. *)
Lemma extend_empty_batch_returns :
  ValueSet.extend Sample.HttpUrl_valid 9 [] false false Sample.expanded
  = (Return tt, Sample.expanded)
  /\ fst (ValueSet.extend Sample.HttpUrl_valid 9 [] false false Sample.expanded)
     <> Raise ValueError.
Proof.
  split; [reflexivity | discriminate].
Qed.

(** C7 (amended).  For every value set and every setting of
    [init_expansion_if_none]: [extend] with an empty sequence and
    [extend_compose=True] fails with the empty-batch error ([ValueError]) and
    leaves the value set unchanged; with [extend_compose=False] it never
    fails with that error. *)
Theorem extend_empty_batch :
  forall (HttpUrl_valid : Uri -> bool) (now : dateTime) (self : ValueSet.t)
         (init : bool),
    ValueSet.extend HttpUrl_valid now [] true init self = (Raise ValueError, self)
    /\ fst (ValueSet.extend HttpUrl_valid now [] false init self) <> Raise ValueError.
Proof.
  intros valid now self init. split.
  - reflexivity.
  - destruct self as [u n co ex tx]. destruct ex as [e |], init; discriminate.
Qed.

(** C8.  For every class of value set, every value set and every item: the
    membership test returns false, without raising and without touching the
    object, for an item that is neither a [Coding] nor a [CodeableConcept];
    for a [Coding] and for a [CodeableConcept] it is exactly the
    [validate_code] of the class. *)
Theorem contains_delegates_to_validate_code :
  forall (cls : ValueSet.Overrides) (self : ValueSet.t),
    (forall v : PyValue,
        ValueSet.__contains__ (ItemOther v) self = (Return false, self)
        /\ ValueSet.py_in (ItemOther v) self = (Return false, self))
    /\ (forall c : Coding.t,
        ValueSet.__contains__ (ItemCoding c) self
        = ValueSet.self_validate_code (ItemCoding c) self)
    /\ (forall cc : CodeableConcept.t,
        ValueSet.__contains__ (ItemCodeableConcept cc) self
        = ValueSet.self_validate_code (ItemCodeableConcept cc) self).
Proof.
  intros cls self. split; [| split]; intros; try split; reflexivity.
Qed.

(** C9, as stated, fails on the empty batch: on [ValueSet()], which has no
    composition, [extend([])] with [extend_compose=True] fails with
    [ValueError] at the unpacking of the first concept, before the
    composition is dereferenced. *)
Lemma extend_empty_batch_precedes_dereference :
  ValueSet.compose Sample.bare = None
  /\ ValueSet.extend Sample.HttpUrl_valid 9 [] true true Sample.bare
     = (Raise ValueError, Sample.bare)
  /\ fst (ValueSet.extend Sample.HttpUrl_valid 9 [] true true Sample.bare)
     <> Raise AttributeError.
Proof.
  split; [reflexivity |]. split; [reflexivity | discriminate].
Qed.

(** C9 (amended).  For every value set whose composition is absent: [append]
    with [extend_compose=True] and [extend] of a non-empty batch with
    [extend_compose=True] fail with [AttributeError], the dereference of the
    missing composition, and leave the value set as it was; no composition
    is created. *)
Theorem append_extend_need_compose :
  forall (HttpUrl_valid : Uri -> bool) (now : dateTime) (self : ValueSet.t)
         (code : VSCodingWithDesignation.t)
         (codes : list VSCodingWithDesignation.t) (init : bool),
    ValueSet.compose self = None ->
    codes <> [] ->
    ValueSet.append HttpUrl_valid now code true init self
    = (Raise AttributeError, self)
    /\ ValueSet.extend HttpUrl_valid now codes true init self
       = (Raise AttributeError, self).
Proof.
  intros valid now self code codes init Hc Hne.
  destruct codes as [| first_code rest]; [contradiction |].
  unfold ValueSet.append, ValueSet.extend, ValueSet.extend_iterable,
    ValueSet.compose_include_append, bind, get.
  cbn [iterate]. rewrite Hc. split; reflexivity.
Qed.

(** The amended C9 at [ValueSet()], which has no composition. *)
Lemma append_extend_need_compose_witness :
  ValueSet.append Sample.HttpUrl_valid 9 Sample.xA true true Sample.bare
  = (Raise AttributeError, Sample.bare)
  /\ ValueSet.extend Sample.HttpUrl_valid 9 [Sample.xA; Sample.xB] true true
       Sample.bare
     = (Raise AttributeError, Sample.bare).
Proof.
  apply (append_extend_need_compose Sample.HttpUrl_valid 9 Sample.bare Sample.xA
           [Sample.xA; Sample.xB] true).
  - reflexivity.
  - discriminate.
Defined.

(** C10.  For every expanded value set whose [expansion.total] is present
    and equal to 0, [__len__] returns the number of concepts in
    [expansion.contains], and so does [len] (for a number that fits the
    index type, as the length of every list does). *)
Theorem len_total_zero_counts_contains :
  forall (self : ValueSet.t) (e : VSExpansion.t),
    ValueSet.expansion self = Some e ->
    VSExpansion.total e = Some 0 ->
    ValueSet.__len__ self
    = (Return (Z.of_nat (List.length (VSExpansion.contains e))), self)
    /\ ValueSet.len self
       = (if Z.of_nat (List.length (VSExpansion.contains e)) <=? sys_maxsize
          then Return (Z.of_nat (List.length (VSExpansion.contains e)))
          else Raise OverflowError, self).
Proof.
  intros self e He Htotal.
  assert (Hlen : ValueSet.__len__ self
                 = (Return (Z.of_nat (List.length (VSExpansion.contains e))), self)).
  { rewrite (len_expanded self e He), Htotal. reflexivity. }
  split; [exact Hlen |].
  rewrite (len_of_len self _ Hlen). now rewrite len_result_count.
Qed.

(** C10 at an expansion with [total=0] and two concepts. *)
Lemma len_total_zero_counts_contains_witness :
  ValueSet.__len__ Sample.total_zero = (Return 2, Sample.total_zero)
  /\ ValueSet.len Sample.total_zero = (Return 2, Sample.total_zero).
Proof.
  apply (len_total_zero_counts_contains Sample.total_zero
           (VSExpansion.mk None (Some 0) [Sample.xA; Sample.xB] None 7)).
  - reflexivity.
  - reflexivity.
Defined.

(** * Further properties of the code *)

(** ** append *)

(** X1.  [append] succeeds whenever, if it is asked to extend the
    composition, the composition exists and the concept's system is one
    pydantic accepts for an include rule, and an expansion exists or may be
    initialised; the expansion it leaves is the one it started from (the
    existing one, or a fresh one) with the concept added at the end of
    [contains] and every other field kept. *)
Theorem append_succeeds_and_appends :
  forall (HttpUrl_valid : Uri -> bool) (now : dateTime) (self : ValueSet.t)
         (code : VSCodingWithDesignation.t) (extend_compose init : bool),
    (extend_compose = true -> ValueSet.compose self <> None) ->
    (extend_compose = true ->
     system_accepted HttpUrl_valid (Coding.system code) = true) ->
    (ValueSet.expansion self = None -> init = true) ->
    exists V',
      ValueSet.append HttpUrl_valid now code extend_compose init self
      = (Return tt, V')
      /\ ValueSet.expansion V'
         = Some (VSExpansion.contains_extend (expansion_or_fresh now self) [code]).
Proof.
  intros valid now [u n co ex tx] code ext init Hco Hok Hex.
  simpl in Hco, Hex. unfold expansion_or_fresh.
  destruct ext.
  - destruct co as [c |]; [| now destruct (Hco eq_refl)].
    specialize (Hok eq_refl).
    unfold ValueSet.append, ValueSet.compose_include_append, new_VSInclude.
    unfold system_accepted in Hok.
    destruct (Coding.system code) as [s |]; [rewrite Hok |];
      (destruct ex as [e |];
       [| rewrite (Hex eq_refl)]; eexists; split; reflexivity).
  - destruct ex as [e |].
    + eexists. split; reflexivity.
    + rewrite (Hex eq_refl). eexists. split; reflexivity.
Qed.

(** X1 at a value set with a composition and no expansion. *)
Lemma append_succeeds_and_appends_witness :
  exists V',
    ValueSet.append Sample.HttpUrl_valid 9 Sample.xB true true Sample.composed
    = (Return tt, V')
    /\ ValueSet.expansion V'
       = Some (VSExpansion.contains_extend
                 (expansion_or_fresh 9 Sample.composed) [Sample.xB]).
Proof.
  apply (append_succeeds_and_appends Sample.HttpUrl_valid 9 Sample.composed
           Sample.xB true true).
  - discriminate.
  - reflexivity.
  - reflexivity.
Defined.

(** X2.  On a value set without expansion, [append] with
    [init_expansion_if_none=False] raises the assertion.  With
    [extend_compose=False] the value set is untouched; with
    [extend_compose=True] and a system pydantic accepts, the include rule has
    already been added when the assertion fails, and stays. *)
Theorem append_not_initialized :
  forall (HttpUrl_valid : Uri -> bool) (now : dateTime) (self : ValueSet.t)
         (c : VSCompose.t) (code : VSCodingWithDesignation.t),
    ValueSet.expansion self = None ->
    ValueSet.compose self = Some c ->
    system_accepted HttpUrl_valid (Coding.system code) = true ->
    ValueSet.append HttpUrl_valid now code false false self
    = (Raise (AssertionError ValueSet.msg_expansion_none), self)
    /\ ValueSet.append HttpUrl_valid now code true false self
       = (Raise (AssertionError ValueSet.msg_expansion_none),
          ValueSet.set_compose self
            (Some (VSCompose.include_append c
                     (include_rule (Coding.system code) [code])))).
Proof.
  intros valid now [u n co ex tx] c code Hex Hco Hok.
  simpl in Hex, Hco. subst ex co.
  split; [reflexivity |].
  unfold ValueSet.append, ValueSet.compose_include_append, new_VSInclude,
    include_rule.
  unfold system_accepted in Hok.
  destruct (Coding.system code) as [s |]; [rewrite Hok |]; reflexivity.
Qed.

Lemma append_not_initialized_witness :
  ValueSet.append Sample.HttpUrl_valid 9 Sample.xB false false Sample.composed
  = (Raise (AssertionError ValueSet.msg_expansion_none), Sample.composed)
  /\ ValueSet.append Sample.HttpUrl_valid 9 Sample.xB true false Sample.composed
     = (Raise (AssertionError ValueSet.msg_expansion_none),
        ValueSet.set_compose Sample.composed
          (Some (VSCompose.include_append Sample.no_rules
                   (include_rule (Coding.system Sample.xB) [Sample.xB])))).
Proof.
  apply (append_not_initialized Sample.HttpUrl_valid 9 Sample.composed
           Sample.no_rules Sample.xB).
  - reflexivity.
  - reflexivity.
  - reflexivity.
Defined.

Lemma listed_app (l1 l2 : list VSCodingWithDesignation.t) (x : Coding.t) :
  listed (l1 ++ l2) x = listed l1 x || listed l2 x.
Proof. unfold listed. apply existsb_app. Qed.

Lemma listed_singleton (c : VSCodingWithDesignation.t) (x : Coding.t) :
  listed [c] x = Coding.__eq__ c x.
Proof. unfold listed. simpl. apply orb_false_r. Qed.

(** X3.  Membership after [append] on an expanded enumerated value set: a
    coding is a member afterwards exactly when it was one before or it
    equals the appended concept; in particular the appended concept is a
    member and no member is lost. *)
Theorem append_membership :
  forall (HttpUrl_valid : Uri -> bool) (now : dateTime) (self : ValueSet.t) (e : VSExpansion.t)
         (code : VSCodingWithDesignation.t) (init : bool),
    ValueSet.expansion self = Some e ->
    exists V',
      ValueSet.append HttpUrl_valid now code false init self = (Return tt, V')
      /\ (forall x : Coding.t,
            ValueSet.py_in (cls := SimpleValueSet.Class) (ItemCoding x) V'
            = (Return (listed (VSExpansion.contains e) x || Coding.__eq__ code x), V'))
      /\ ValueSet.py_in (cls := SimpleValueSet.Class) (ItemCoding code) V'
         = (Return true, V')
      /\ (forall x : Coding.t,
            ValueSet.py_in (cls := SimpleValueSet.Class) (ItemCoding x) self
            = (Return true, self) ->
            ValueSet.py_in (cls := SimpleValueSet.Class) (ItemCoding x) V'
            = (Return true, V')).
Proof.
  intros valid now [u n co ex tx] e code init Hex. simpl in Hex. subst ex.
  exists (ValueSet.mk u n co (Some (VSExpansion.contains_extend e [code])) tx).
  split.
  - destruct init; reflexivity.
  - assert (Hin : forall x : Coding.t,
              ValueSet.py_in (cls := SimpleValueSet.Class) (ItemCoding x)
                (ValueSet.mk u n co (Some (VSExpansion.contains_extend e [code])) tx)
              = (Return (listed (VSExpansion.contains e) x || Coding.__eq__ code x),
                 ValueSet.mk u n co (Some (VSExpansion.contains_extend e [code])) tx)).
    { intros x.
      rewrite (simple_in_coding
                 (ValueSet.mk u n co (Some (VSExpansion.contains_extend e [code])) tx)
                 (VSExpansion.contains_extend e [code]) x eq_refl).
      change (existsb _ _) with (listed (VSExpansion.contains e ++ [code]) x).
      now rewrite listed_app, listed_singleton. }
    split; [exact Hin |]. split.
    + rewrite Hin, Coding_eq_refl, orb_true_r. reflexivity.
    + intros x Hx. rewrite Hin.
      rewrite (simple_in_coding (ValueSet.mk u n co (Some e) tx) e x eq_refl) in Hx.
      injection Hx as Hx. unfold listed. rewrite Hx. reflexivity.
Qed.

Lemma append_membership_witness :
  exists V',
    ValueSet.append Sample.HttpUrl_valid 9 Sample.yA false true Sample.expanded = (Return tt, V')
    /\ (forall x : Coding.t,
          ValueSet.py_in (cls := SimpleValueSet.Class) (ItemCoding x) V'
          = (Return (listed [Sample.xA] x || Coding.__eq__ Sample.yA x), V'))
    /\ ValueSet.py_in (cls := SimpleValueSet.Class) (ItemCoding Sample.yA) V'
       = (Return true, V')
    /\ (forall x : Coding.t,
          ValueSet.py_in (cls := SimpleValueSet.Class) (ItemCoding x) Sample.expanded
          = (Return true, Sample.expanded) ->
          ValueSet.py_in (cls := SimpleValueSet.Class) (ItemCoding x) V'
          = (Return true, V')).
Proof.
  apply (append_membership Sample.HttpUrl_valid 9 Sample.expanded
           (VSExpansion.mk None None [Sample.xA] None 7) Sample.yA true).
  reflexivity.
Defined.

(** X4.  [append] never touches [expansion.total]: afterwards [__len__] is
    one more than the number of concepts held before when the total is
    absent or 0, and is the unchanged total when the total is present and
    not 0. *)
Theorem append_len :
  forall (HttpUrl_valid : Uri -> bool) (now : dateTime) (self : ValueSet.t) (e : VSExpansion.t)
         (code : VSCodingWithDesignation.t) (init : bool),
    ValueSet.expansion self = Some e ->
    exists V',
      ValueSet.append HttpUrl_valid now code false init self = (Return tt, V')
      /\ option_map VSExpansion.total (ValueSet.expansion V')
         = Some (VSExpansion.total e)
      /\ (VSExpansion.total e = None \/ VSExpansion.total e = Some 0 ->
          ValueSet.__len__ V'
          = (Return (Z.of_nat (List.length (VSExpansion.contains e)) + 1), V'))
      /\ (forall n : Z, VSExpansion.total e = Some n -> n <> 0 ->
          ValueSet.__len__ self = (Return n, self)
          /\ ValueSet.__len__ V' = (Return n, V')).
Proof.
  intros valid now [u n co ex tx] e code init Hex. simpl in Hex. subst ex.
  exists (ValueSet.mk u n co (Some (VSExpansion.contains_extend e [code])) tx).
  split; [destruct init; reflexivity |].
  split; [reflexivity |].
  assert (Hlen : List.length (VSExpansion.contains e ++ [code])
                 = S (List.length (VSExpansion.contains e))).
  { rewrite length_app. simpl. lia. }
  split.
  - intros Ht.
    rewrite (len_expanded
               (ValueSet.mk u n co (Some (VSExpansion.contains_extend e [code])) tx)
               (VSExpansion.contains_extend e [code]) eq_refl).
    cbn [VSExpansion.contains_extend VSExpansion.total VSExpansion.contains].
    rewrite Hlen.
    replace (Z.of_nat (S (List.length (VSExpansion.contains e))))
      with (Z.of_nat (List.length (VSExpansion.contains e)) + 1) by lia.
    destruct Ht as [Ht | Ht]; rewrite Ht; reflexivity.
  - intros m Ht Hm.
    rewrite (len_expanded
               (ValueSet.mk u n co (Some (VSExpansion.contains_extend e [code])) tx)
               (VSExpansion.contains_extend e [code]) eq_refl).
    rewrite (len_expanded (ValueSet.mk u n co (Some e) tx) e eq_refl).
    cbn [VSExpansion.contains_extend VSExpansion.total VSExpansion.contains].
    rewrite Ht. unfold py_or.
    destruct (Z.eqb_spec m 0) as [H0 | H0]; [contradiction |].
    split; reflexivity.
Qed.

Lemma append_len_witness :
  exists V',
    ValueSet.append Sample.HttpUrl_valid 9 Sample.xC false true Fixture.paged = (Return tt, V')
    /\ option_map VSExpansion.total (ValueSet.expansion V')
       = Some (VSExpansion.total Fixture.page)
    /\ (VSExpansion.total Fixture.page = None
        \/ VSExpansion.total Fixture.page = Some 0 ->
        ValueSet.__len__ V'
        = (Return (Z.of_nat (List.length (VSExpansion.contains Fixture.page)) + 1), V'))
    /\ (forall n : Z, VSExpansion.total Fixture.page = Some n -> n <> 0 ->
        ValueSet.__len__ Fixture.paged = (Return n, Fixture.paged)
        /\ ValueSet.__len__ V' = (Return n, V')).
Proof.
  apply (append_len Sample.HttpUrl_valid 9 Fixture.paged Fixture.page Sample.xC true).
  reflexivity.
Defined.

(** ** extend *)

(** X5.  On an expanded value set, [extend] with both flags false adds the
    batch at the end of [expansion.contains], in order, keeps the concepts
    already there and every other field of the expansion, and changes
    nothing else. *)
Theorem extend_appends_batch :
  forall (HttpUrl_valid : Uri -> bool) (now : dateTime) (self : ValueSet.t) (e : VSExpansion.t)
         (codes : list VSCodingWithDesignation.t),
    ValueSet.expansion self = Some e ->
    ValueSet.extend HttpUrl_valid now codes false false self
    = (Return tt,
       ValueSet.set_expansion self (Some (VSExpansion.contains_extend e codes)))
    /\ ValueSet.__iter__
         (ValueSet.set_expansion self (Some (VSExpansion.contains_extend e codes)))
       = (Return (VSExpansion.contains e ++ codes),
          ValueSet.set_expansion self (Some (VSExpansion.contains_extend e codes))).
Proof.
  intros valid now [u n co ex tx] e codes Hex. simpl in Hex. subst ex.
  split; reflexivity.
Qed.

Lemma extend_appends_batch_witness :
  ValueSet.extend Sample.HttpUrl_valid 9 [Sample.xB; Sample.xC] false false Sample.expanded
  = (Return tt,
     ValueSet.set_expansion Sample.expanded
       (Some (VSExpansion.contains_extend
                (VSExpansion.mk None None [Sample.xA] None 7)
                [Sample.xB; Sample.xC])))
  /\ ValueSet.__iter__
       (ValueSet.set_expansion Sample.expanded
          (Some (VSExpansion.contains_extend
                   (VSExpansion.mk None None [Sample.xA] None 7)
                   [Sample.xB; Sample.xC])))
     = (Return ([Sample.xA] ++ [Sample.xB; Sample.xC]),
        ValueSet.set_expansion Sample.expanded
          (Some (VSExpansion.contains_extend
                   (VSExpansion.mk None None [Sample.xA] None 7)
                   [Sample.xB; Sample.xC]))).
Proof.
  apply (extend_appends_batch Sample.HttpUrl_valid 9 Sample.expanded
           (VSExpansion.mk None None [Sample.xA] None 7) [Sample.xB; Sample.xC]).
  reflexivity.
Defined.

(** X6.  On an expanded value set, [extend] with
    [init_expansion_if_none=True] replaces the expansion by a fresh one that
    holds the batch alone: the concepts, total, offset and identifier of the
    old expansion are gone, and [__len__] is the size of the batch. *)
Theorem extend_replaces_expansion :
  forall (HttpUrl_valid : Uri -> bool) (now : dateTime) (self : ValueSet.t) (e : VSExpansion.t)
         (codes : list VSCodingWithDesignation.t),
    ValueSet.expansion self = Some e ->
    exists V',
      ValueSet.extend HttpUrl_valid now codes false true self = (Return tt, V')
      /\ ValueSet.expansion V' = Some (VSExpansion.mk None None codes None now)
      /\ ValueSet.__len__ V' = (Return (Z.of_nat (List.length codes)), V').
Proof.
  intros valid now [u n co ex tx] e codes Hex. simpl in Hex. subst ex.
  exists (ValueSet.mk u n co (Some (VSExpansion.mk None None codes None now)) tx).
  split; [reflexivity |]. split; [reflexivity |].
  rewrite (len_expanded
             (ValueSet.mk u n co (Some (VSExpansion.mk None None codes None now)) tx)
             (VSExpansion.mk None None codes None now) eq_refl).
  reflexivity.
Qed.

Lemma extend_replaces_expansion_witness :
  exists V',
    ValueSet.extend Sample.HttpUrl_valid 9 [Sample.xC] false true Fixture.paged = (Return tt, V')
    /\ ValueSet.expansion V' = Some (VSExpansion.mk None None [Sample.xC] None 9)
    /\ ValueSet.__len__ V' = (Return (Z.of_nat (List.length [Sample.xC])), V').
Proof.
  apply (extend_replaces_expansion Sample.HttpUrl_valid 9 Fixture.paged Fixture.page [Sample.xC]).
  reflexivity.
Defined.

(** X7.  On a value set without expansion [extend] never succeeds, whatever
    the batch and the flags, and never creates an expansion; with
    [extend_compose=False] it raises the assertion and leaves the value set
    untouched. *)
Theorem extend_unexpanded_never_succeeds :
  forall (HttpUrl_valid : Uri -> bool) (now : dateTime) (self : ValueSet.t)
         (codes : list VSCodingWithDesignation.t) (extend_compose init : bool),
    ValueSet.expansion self = None ->
    returns_normally (fst (ValueSet.extend HttpUrl_valid now codes extend_compose init self)) = false
    /\ ValueSet.expansion (snd (ValueSet.extend HttpUrl_valid now codes extend_compose init self))
       = None
    /\ ValueSet.extend HttpUrl_valid now codes false init self
       = (Raise (AssertionError ValueSet.msg_expansion_none), self).
Proof.
  intros valid now [u n co ex tx] codes ext init Hex. simpl in Hex. subst ex.
  destruct ext, init, codes as [| first_code rest], co as [c |];
    unfold ValueSet.extend, ValueSet.extend_iterable,
      ValueSet.compose_include_append, new_VSInclude;
    cbn [iterate];
    try (destruct (Coding.system first_code) as [s |]; [destruct (valid s) |]);
    repeat split; reflexivity.
Qed.

Lemma extend_unexpanded_never_succeeds_witness :
  returns_normally
    (fst (ValueSet.extend Sample.HttpUrl_valid 9 [Sample.xA] true true Sample.composed)) = false
  /\ ValueSet.expansion
       (snd (ValueSet.extend Sample.HttpUrl_valid 9 [Sample.xA] true true Sample.composed)) = None
  /\ ValueSet.extend Sample.HttpUrl_valid 9 [Sample.xA] false true Sample.composed
     = (Raise (AssertionError ValueSet.msg_expansion_none), Sample.composed).
Proof.
  apply (extend_unexpanded_never_succeeds Sample.HttpUrl_valid 9 Sample.composed [Sample.xA] true true).
  reflexivity.
Defined.

(** ** How append and extend relate *)

Lemma extend_singleton (HttpUrl_valid : Uri -> bool) (now : dateTime) (self : ValueSet.t)
    (code : VSCodingWithDesignation.t) (extend_compose : bool) :
  ValueSet.append HttpUrl_valid now code extend_compose false self
  = ValueSet.extend HttpUrl_valid now [code] extend_compose false self.
Proof.
  destruct self as [u n co ex tx].
  destruct extend_compose, co as [c |], ex as [e |];
    unfold ValueSet.append, ValueSet.extend, ValueSet.extend_iterable,
      ValueSet.compose_include_append, new_VSInclude;
    cbn [iterate];
    try (destruct (Coding.system code) as [s |]; [destruct (HttpUrl_valid s) |]);
    reflexivity.
Qed.

Lemma extend_concat (HttpUrl_valid : Uri -> bool) (now : dateTime) (self : ValueSet.t)
    (xs ys : list VSCodingWithDesignation.t) :
  bind (ValueSet.extend HttpUrl_valid now xs false false)
       (fun _ => ValueSet.extend HttpUrl_valid now ys false false) self
  = ValueSet.extend HttpUrl_valid now (xs ++ ys) false false self.
Proof.
  destruct self as [u n co ex tx]. destruct ex as [e |].
  - cbv -[app]. rewrite <- app_assoc. reflexivity.
  - reflexivity.
Qed.

(** X8.  With [init_expansion_if_none=False], appending one concept and
    extending by the one-element batch are the same operation: same outcome,
    same value set, for every value set and either setting of
    [extend_compose]. *)
Theorem append_is_extend_singleton :
  forall (HttpUrl_valid : Uri -> bool) (now : dateTime) (self : ValueSet.t) (code : VSCodingWithDesignation.t)
         (extend_compose : bool),
    ValueSet.append HttpUrl_valid now code extend_compose false self
    = ValueSet.extend HttpUrl_valid now [code] extend_compose false self.
Proof.
  exact extend_singleton.
Qed.

(** X9.  Extending by two batches in turn is extending by their
    concatenation (both flags false), on every value set: when there is no
    expansion both sides raise the same assertion and leave the value set
    alone. *)
Theorem extend_app :
  forall (HttpUrl_valid : Uri -> bool) (now : dateTime) (self : ValueSet.t)
         (xs ys : list VSCodingWithDesignation.t),
    bind (ValueSet.extend HttpUrl_valid now xs false false)
         (fun _ => ValueSet.extend HttpUrl_valid now ys false false) self
    = ValueSet.extend HttpUrl_valid now (xs ++ ys) false false self.
Proof.
  exact extend_concat.
Qed.

(** X10.  On an expanded value set, extending by a batch (both flags false)
    is appending its concepts one by one. *)
Theorem extend_is_append_each :
  forall (HttpUrl_valid : Uri -> bool) (now : dateTime) (codes : list VSCodingWithDesignation.t)
         (self : ValueSet.t) (e : VSExpansion.t),
    ValueSet.expansion self = Some e ->
    ValueSet.extend HttpUrl_valid now codes false false self
    = append_each HttpUrl_valid now codes false false self.
Proof.
  intros HttpUrl_valid now codes. induction codes as [| code rest IH]; intros self e Hex.
  - destruct self as [u n co ex tx]. simpl in Hex. subst ex.
    cbv -[app]. rewrite app_nil_r. destruct e; reflexivity.
  - change (code :: rest) with ([code] ++ rest) at 1.
    rewrite <- extend_concat. cbn [append_each]. unfold bind.
    rewrite <- extend_singleton.
    destruct self as [u n co ex tx]. simpl in Hex. subst ex.
    change (ValueSet.append HttpUrl_valid now code false false (ValueSet.mk u n co (Some e) tx))
      with (@Return unit tt,
            ValueSet.mk u n co (Some (VSExpansion.contains_extend e [code])) tx).
    apply (IH (ValueSet.mk u n co
                 (Some (VSExpansion.contains_extend e [code])) tx)
              (VSExpansion.contains_extend e [code])).
    reflexivity.
Qed.

Lemma extend_is_append_each_witness :
  ValueSet.extend Sample.HttpUrl_valid 9 [Sample.xB; Sample.xC] false false Sample.expanded
  = append_each Sample.HttpUrl_valid 9 [Sample.xB; Sample.xC] false false Sample.expanded.
Proof.
  apply (extend_is_append_each Sample.HttpUrl_valid 9 [Sample.xB; Sample.xC] Sample.expanded
           (VSExpansion.mk None None [Sample.xA] None 7)).
  reflexivity.
Defined.

(** X11.  Whatever their arguments and whether they return or raise,
    [append] and [extend] keep the url, the name and the narrative, never
    remove an expansion, never create or drop a composition, and change a
    composition only by adding include rules at the end of [include]. *)
Theorem append_extend_grow_only :
  forall (HttpUrl_valid : Uri -> bool) (now : dateTime) (self : ValueSet.t) (code : VSCodingWithDesignation.t)
         (codes : list VSCodingWithDesignation.t) (extend_compose init : bool),
    grows_only self (snd (ValueSet.append HttpUrl_valid now code extend_compose init self))
    /\ grows_only self (snd (ValueSet.extend HttpUrl_valid now codes extend_compose init self)).
Proof.
  intros valid now [u n co ex tx] code codes ext init.
  destruct ext, init, co as [c |], ex as [e |], codes as [| first_code rest];
    unfold grows_only, ValueSet.append, ValueSet.extend, ValueSet.extend_iterable,
      ValueSet.compose_include_append, new_VSInclude;
    cbn [iterate];
    try (destruct (Coding.system code) as [s |]; [destruct (valid s) |]);
    try (destruct (Coding.system first_code) as [s' |]; [destruct (valid s') |]);
    simpl;
    repeat split; auto;
    try (exists []; now rewrite app_nil_r);
    try (eexists; reflexivity).
Qed.

(** X12.  [append] with [extend_compose=True], on a value set that has a
    composition and for a concept whose system pydantic accepts, adds exactly
    one include rule, at the end: its system is the concept's system and its
    concept list is the concept alone.  The rule is in place whether or not
    the expansion step that follows succeeds. *)
Theorem append_include_rule :
  forall (HttpUrl_valid : Uri -> bool) (now : dateTime) (self : ValueSet.t)
         (c : VSCompose.t) (code : VSCodingWithDesignation.t) (init : bool),
    ValueSet.compose self = Some c ->
    system_accepted HttpUrl_valid (Coding.system code) = true ->
    ValueSet.compose (snd (ValueSet.append HttpUrl_valid now code true init self))
    = Some (VSCompose.include_append c (include_rule (Coding.system code) [code])).
Proof.
  intros valid now [u n co ex tx] c code init Hco Hok. simpl in Hco. subst co.
  unfold ValueSet.append, ValueSet.compose_include_append, new_VSInclude,
    include_rule.
  unfold system_accepted in Hok.
  destruct (Coding.system code) as [s |]; [rewrite Hok |];
    destruct ex as [e |], init; reflexivity.
Qed.

Lemma append_include_rule_witness :
  ValueSet.compose
    (snd (ValueSet.append Sample.HttpUrl_valid 9 Sample.yA true false Sample.composed))
  = Some (VSCompose.include_append Sample.no_rules
            (include_rule (Coding.system Sample.yA) [Sample.yA])).
Proof.
  apply (append_include_rule Sample.HttpUrl_valid 9 Sample.composed
           Sample.no_rules Sample.yA false).
  - reflexivity.
  - reflexivity.
Defined.

(** X13.  [extend] of a non-empty sequence with [extend_compose=True], on a
    value set that has a composition and when pydantic accepts the system of
    the first concept, adds exactly one include rule for the whole batch, at
    the end: the rule is scoped to the system of the first concept, whatever
    the systems of the others, and lists the codes of all the concepts in
    order.  The rule is in place whether or not the expansion step that
    follows succeeds. *)
Theorem extend_adds_one_include_rule :
  forall (HttpUrl_valid : Uri -> bool) (now : dateTime) (self : ValueSet.t)
         (c : VSCompose.t) (first_code : VSCodingWithDesignation.t)
         (rest : list VSCodingWithDesignation.t) (init : bool),
    ValueSet.compose self = Some c ->
    system_accepted HttpUrl_valid (Coding.system first_code) = true ->
    exists rule,
      ValueSet.compose
        (snd (ValueSet.extend HttpUrl_valid now (first_code :: rest) true init self))
      = Some (VSCompose.include_append c rule)
      /\ VSCompose.include (VSCompose.include_append c rule)
         = VSCompose.include c ++ [rule]
      /\ VSInclude.system rule = Coding.system first_code
      /\ map VSConcept.code (VSInclude.concept rule)
         = map (fun k : VSCodingWithDesignation.t => Coding.code k)
               (first_code :: rest).
Proof.
  intros valid now self c first_code rest init Hco Hok.
  exists (include_rule (Coding.system first_code) (first_code :: rest)).
  split; [exact (extend_include_rule valid now self c first_code rest init Hco Hok) |].
  split; [reflexivity |]. split; [reflexivity |].
  unfold include_rule. cbn [VSInclude.concept].
  rewrite map_map. reflexivity.
Qed.

(** X13 at a batch of two systems, the first one accepted. *)
Lemma extend_adds_one_include_rule_witness :
  exists rule,
    ValueSet.compose
      (snd (ValueSet.extend Sample.HttpUrl_valid 9 (Sample.xA :: [Sample.yA])
              true false Sample.expanded))
    = Some (VSCompose.include_append Sample.no_rules rule)
    /\ VSCompose.include (VSCompose.include_append Sample.no_rules rule)
       = VSCompose.include Sample.no_rules ++ [rule]
    /\ VSInclude.system rule = Coding.system Sample.xA
    /\ map VSConcept.code (VSInclude.concept rule)
       = map (fun k : VSCodingWithDesignation.t => Coding.code k)
             (Sample.xA :: [Sample.yA]).
Proof.
  apply (extend_adds_one_include_rule Sample.HttpUrl_valid 9 Sample.expanded
           Sample.no_rules Sample.xA [Sample.yA] false).
  - reflexivity.
  - reflexivity.
Defined.

(** ** init_expansion *)

(** X14.  [init_expansion] always succeeds and overwrites: whatever
    expansion the value set had, afterwards it has the empty one, so that
    iteration yields nothing, [__len__] is 0 and no coding is a member; the
    composition is not touched. *)
Theorem init_expansion_overwrites :
  forall (now : dateTime) (self : ValueSet.t),
    exists V',
      ValueSet.init_expansion now self = (Return tt, V')
      /\ ValueSet.expansion V' = Some (VSExpansion.default now)
      /\ ValueSet.compose V' = ValueSet.compose self
      /\ ValueSet.__iter__ V' = (Return [], V')
      /\ ValueSet.__len__ V' = (Return 0, V')
      /\ forall x : Coding.t,
           ValueSet.py_in (cls := SimpleValueSet.Class) (ItemCoding x) V'
           = (Return false, V').
Proof.
  intros now [u n co ex tx].
  exists (ValueSet.mk u n co (Some (VSExpansion.default now)) tx).
  repeat split; reflexivity.
Qed.

(** ** Reads *)

Lemma py_any_keeps_state {S A : Type} (f : A -> Py S bool) (s : S) :
  (forall x, snd (f x s) = s) ->
  forall l, snd (py_any f l s) = s.
Proof.
  intros Hf l. induction l as [| x rest IH]; simpl.
  - reflexivity.
  - unfold bind. specialize (Hf x).
    destruct (f x s) as [[b | e] s']; simpl in Hf; subst s'.
    + destruct b; [reflexivity | exact IH].
    + reflexivity.
Qed.

Lemma iter_keeps_state (self : ValueSet.t) : snd (ValueSet.__iter__ self) = self.
Proof.
  destruct (ValueSet.expansion self) as [e |] eqn:He.
  - now rewrite (iter_expanded self e He).
  - now rewrite (iter_unexpanded self He).
Qed.

Lemma len_keeps_state (self : ValueSet.t) : snd (ValueSet.__len__ self) = self.
Proof.
  destruct (ValueSet.expansion self) as [e |] eqn:He.
  - now rewrite (len_expanded self e He).
  - now rewrite (len_unexpanded self He).
Qed.

Lemma simple_in_coding_keeps_state (self : ValueSet.t) (x : Coding.t) :
  snd (ValueSet.py_in (cls := SimpleValueSet.Class) (ItemCoding x) self) = self.
Proof.
  change (ValueSet.py_in (cls := SimpleValueSet.Class) (ItemCoding x) self)
    with (bind ValueSet.__iter__
            (fun codings => ret (listed codings x)) self).
  unfold bind. pose proof (iter_keeps_state self) as H.
  destruct (ValueSet.__iter__ self) as [[codings | e] s']; simpl in H; subst s';
    reflexivity.
Qed.

(** X15.  Reads never modify the value set, whether they return or raise:
    iteration, [__len__], [len] and the membership test of an enumerated
    value set, on any item, leave the object exactly as it was; in
    particular no read stores an expansion. *)
Theorem reads_keep_value_set :
  forall (self : ValueSet.t) (item : Item),
    snd (ValueSet.__iter__ self) = self
    /\ snd (ValueSet.__len__ self) = self
    /\ snd (ValueSet.len self) = self
    /\ snd (ValueSet.py_in (cls := SimpleValueSet.Class) item self) = self.
Proof.
  intros self item.
  split; [apply iter_keeps_state |].
  split; [apply len_keeps_state |].
  split.
  - unfold ValueSet.len, bind. pose proof (len_keeps_state self) as H.
    destruct (ValueSet.__len__ self) as [[k | e] s']; simpl in H; subst s'.
    + destruct (len_result k); reflexivity.
    + reflexivity.
  - destruct item as [x | cc | v].
    + apply simple_in_coding_keeps_state.
    + change (ValueSet.py_in (cls := SimpleValueSet.Class)
                (ItemCodeableConcept cc) self)
        with (py_any (fun c => ValueSet.py_in (cls := SimpleValueSet.Class)
                                 (ItemCoding c))
                     (CodeableConcept.coding cc) self).
      apply py_any_keeps_state. intros x. apply simple_in_coding_keeps_state.
    + reflexivity.
Qed.

(** ** Membership in an enumerated value set *)

(** X16.  On an expanded enumerated value set the membership test of a
    [CodeableConcept] returns, and it is true exactly when one of its codings
    is a member; a concept without codings is never a member. *)
Theorem codeable_concept_member_iff :
  forall (self : ValueSet.t) (e : VSExpansion.t) (cc : CodeableConcept.t),
    ValueSet.expansion self = Some e ->
    exists b : bool,
      ValueSet.py_in (cls := SimpleValueSet.Class) (ItemCodeableConcept cc) self
      = (Return b, self)
      /\ (b = true <->
          exists x : Coding.t,
            In x (CodeableConcept.coding cc)
            /\ ValueSet.py_in (cls := SimpleValueSet.Class) (ItemCoding x) self
               = (Return true, self))
      /\ (CodeableConcept.coding cc = [] -> b = false).
Proof.
  intros self e cc He.
  rewrite (simple_in_codeable_concept self e cc He).
  eexists. split; [reflexivity |]. split.
  - rewrite existsb_exists. split.
    + intros [x [Hx Hb]]. exists x. split; [exact Hx |].
      rewrite (simple_in_coding self e x He), Hb. reflexivity.
    + intros [x [Hx Hb]]. exists x. split; [exact Hx |].
      rewrite (simple_in_coding self e x He) in Hb. now injection Hb.
  - intros Hnil. rewrite Hnil. reflexivity.
Qed.

Lemma codeable_concept_member_iff_witness :
  exists b : bool,
    ValueSet.py_in (cls := SimpleValueSet.Class)
      (ItemCodeableConcept Fixture.concept_yA_xA) Sample.expanded
    = (Return b, Sample.expanded)
    /\ (b = true <->
        exists x : Coding.t,
          In x (CodeableConcept.coding Fixture.concept_yA_xA)
          /\ ValueSet.py_in (cls := SimpleValueSet.Class) (ItemCoding x)
               Sample.expanded
             = (Return true, Sample.expanded))
    /\ (CodeableConcept.coding Fixture.concept_yA_xA = [] -> b = false).
Proof.
  apply (codeable_concept_member_iff Sample.expanded
           (VSExpansion.mk None None [Sample.xA] None 7) Fixture.concept_yA_xA).
  reflexivity.
Defined.

(** X17.  On an enumerated value set without expansion the membership test
    raises the assertion of [_expand] for a [Coding] and for a
    [CodeableConcept] that has at least one coding, and returns false,
    without raising, for a [CodeableConcept] without codings and for any
    other value. *)
Theorem membership_without_expansion :
  forall (self : ValueSet.t) (x : Coding.t) (cc : CodeableConcept.t) (v : PyValue),
    ValueSet.expansion self = None ->
    ValueSet.py_in (cls := SimpleValueSet.Class) (ItemCoding x) self
    = (Raise (AssertionError ValueSet.msg_no_expansion), self)
    /\ ValueSet.py_in (cls := SimpleValueSet.Class) (ItemCodeableConcept cc) self
       = (match CodeableConcept.coding cc with
          | [] => Return false
          | _ :: _ => Raise (AssertionError ValueSet.msg_no_expansion)
          end, self)
    /\ ValueSet.py_in (cls := SimpleValueSet.Class) (ItemOther v) self
       = (Return false, self).
Proof.
  intros self x cc v He.
  assert (Hcoding : forall y : Coding.t,
             ValueSet.py_in (cls := SimpleValueSet.Class) (ItemCoding y) self
             = (Raise (AssertionError ValueSet.msg_no_expansion), self)).
  { intros y.
    change (ValueSet.py_in (cls := SimpleValueSet.Class) (ItemCoding y) self)
      with (bind ValueSet.__iter__
              (fun codings => ret (listed codings y)) self).
    unfold bind. rewrite (iter_unexpanded self He). reflexivity. }
  split; [apply Hcoding |]. split; [| reflexivity].
  change (ValueSet.py_in (cls := SimpleValueSet.Class) (ItemCodeableConcept cc) self)
    with (py_any (fun c => ValueSet.py_in (cls := SimpleValueSet.Class)
                             (ItemCoding c))
                 (CodeableConcept.coding cc) self).
  destruct (CodeableConcept.coding cc) as [| y rest].
  - reflexivity.
  - cbn [py_any]. unfold bind. rewrite Hcoding. reflexivity.
Qed.

Lemma membership_without_expansion_witness :
  ValueSet.py_in (cls := SimpleValueSet.Class) (ItemCoding Sample.xA) Sample.composed
  = (Raise (AssertionError ValueSet.msg_no_expansion), Sample.composed)
  /\ ValueSet.py_in (cls := SimpleValueSet.Class)
       (ItemCodeableConcept Fixture.concept_yA_xA) Sample.composed
     = (match CodeableConcept.coding Fixture.concept_yA_xA with
        | [] => Return false
        | _ :: _ => Raise (AssertionError ValueSet.msg_no_expansion)
        end, Sample.composed)
  /\ ValueSet.py_in (cls := SimpleValueSet.Class) (ItemOther PyNone) Sample.composed
     = (Return false, Sample.composed).
Proof.
  apply (membership_without_expansion Sample.composed Sample.xA
           Fixture.concept_yA_xA PyNone).
  reflexivity.
Defined.

(** X18.  Membership after [extend] on an expanded enumerated value set
    (both flags false): a coding is a member afterwards exactly when it was
    one before or it equals a concept of the batch; so every concept of the
    batch is a member. *)
Theorem extend_membership :
  forall (HttpUrl_valid : Uri -> bool) (now : dateTime) (self : ValueSet.t) (e : VSExpansion.t)
         (codes : list VSCodingWithDesignation.t),
    ValueSet.expansion self = Some e ->
    exists V',
      ValueSet.extend HttpUrl_valid now codes false false self = (Return tt, V')
      /\ (forall x : Coding.t,
            ValueSet.py_in (cls := SimpleValueSet.Class) (ItemCoding x) V'
            = (Return (listed (VSExpansion.contains e) x || listed codes x), V'))
      /\ (forall c : VSCodingWithDesignation.t, In c codes ->
            ValueSet.py_in (cls := SimpleValueSet.Class) (ItemCoding c) V'
            = (Return true, V')).
Proof.
  intros valid now [u n co ex tx] e codes Hex. simpl in Hex. subst ex.
  exists (ValueSet.mk u n co (Some (VSExpansion.contains_extend e codes)) tx).
  split; [reflexivity |].
  assert (Hin : forall x : Coding.t,
            ValueSet.py_in (cls := SimpleValueSet.Class) (ItemCoding x)
              (ValueSet.mk u n co (Some (VSExpansion.contains_extend e codes)) tx)
            = (Return (listed (VSExpansion.contains e) x || listed codes x),
               ValueSet.mk u n co (Some (VSExpansion.contains_extend e codes)) tx)).
  { intros x.
    rewrite (simple_in_coding
               (ValueSet.mk u n co (Some (VSExpansion.contains_extend e codes)) tx)
               (VSExpansion.contains_extend e codes) x eq_refl).
    change (existsb _ _) with (listed (VSExpansion.contains e ++ codes) x).
    now rewrite listed_app. }
  split; [exact Hin |].
  intros c Hc. rewrite Hin.
  assert (Hl : listed codes c = true).
  { unfold listed. apply existsb_exists. exists c.
    split; [exact Hc | apply Coding_eq_refl]. }
  rewrite Hl, orb_true_r. reflexivity.
Qed.

Lemma extend_membership_witness :
  exists V',
    ValueSet.extend Sample.HttpUrl_valid 9 [Sample.xB; Sample.yA] false false Sample.expanded
    = (Return tt, V')
    /\ (forall x : Coding.t,
          ValueSet.py_in (cls := SimpleValueSet.Class) (ItemCoding x) V'
          = (Return (listed [Sample.xA] x || listed [Sample.xB; Sample.yA] x), V'))
    /\ (forall c : VSCodingWithDesignation.t, In c [Sample.xB; Sample.yA] ->
          ValueSet.py_in (cls := SimpleValueSet.Class) (ItemCoding c) V'
          = (Return true, V')).
Proof.
  apply (extend_membership Sample.HttpUrl_valid 9 Sample.expanded
           (VSExpansion.mk None None [Sample.xA] None 7) [Sample.xB; Sample.yA]).
  reflexivity.
Defined.

(** ** Length *)



(** ** The constructor of the enumerated value set *)

(** X20.  Built from an expansion passed by keyword, and no positional
    concept, the enumerated value set holds that expansion as it is:
    iteration yields its concepts in order, a second iteration yields the
    same, and [__len__] is its total, or the number of its concepts when the
    total is absent or 0. *)
Theorem init_keyword_round_trip :
  forall (now : dateTime) (kwargs : SimpleValueSet.Kwargs) (e : VSExpansion.t),
    SimpleValueSet.kw_expansion kwargs = Some e ->
    exists V,
      SimpleValueSet.__init__ now [] kwargs = Return V
      /\ ValueSet.expansion V = Some e
      /\ ValueSet.__iter__ V = (Return (VSExpansion.contains e), V)
      /\ bind ValueSet.__iter__
              (fun first => bind ValueSet.__iter__
                                 (fun second => ret (first, second))) V
         = (Return (VSExpansion.contains e, VSExpansion.contains e), V)
      /\ ValueSet.__len__ V
         = (Return (py_or (VSExpansion.total e)
                          (Z.of_nat (List.length (VSExpansion.contains e)))), V).
Proof.
  intros now kwargs e Hkw.
  exists (ValueSet.mk (SimpleValueSet.kw_url kwargs) (SimpleValueSet.kw_name kwargs)
            (SimpleValueSet.kw_compose kwargs) (Some e)
            (SimpleValueSet.kw_text kwargs)).
  split; [unfold SimpleValueSet.__init__; simpl; now rewrite Hkw |].
  split; [reflexivity |].
  split; [reflexivity |]. split; reflexivity.
Qed.

Lemma init_keyword_round_trip_witness :
  exists V,
    SimpleValueSet.__init__ 0 [] Fixture.kw_expanded = Return V
    /\ ValueSet.expansion V = Some Fixture.page
    /\ ValueSet.__iter__ V = (Return (VSExpansion.contains Fixture.page), V)
    /\ bind ValueSet.__iter__
            (fun first => bind ValueSet.__iter__
                               (fun second => ret (first, second))) V
       = (Return (VSExpansion.contains Fixture.page,
                  VSExpansion.contains Fixture.page), V)
    /\ ValueSet.__len__ V
       = (Return (py_or (VSExpansion.total Fixture.page)
                        (Z.of_nat (List.length (VSExpansion.contains Fixture.page)))),
          V).
Proof.
  apply (init_keyword_round_trip 0 Fixture.kw_expanded Fixture.page).
  reflexivity.
Defined.

(** X21.  A call of the constructor with at least one positional concept
    never returns a value set: it raises the assertion when an [expansion]
    keyword is passed as well, and [ValidationError] otherwise, the
    narrative being constructed without its status. *)
Theorem init_positional_never_returns :
  forall (now : dateTime) (args : list VSCodingWithDesignation.t)
         (kwargs : SimpleValueSet.Kwargs),
    args <> [] ->
    returns_normally (SimpleValueSet.__init__ now args kwargs) = false
    /\ (SimpleValueSet.kw_expansion kwargs <> None ->
        SimpleValueSet.__init__ now args kwargs
        = Raise (AssertionError SimpleValueSet.msg_expansion_kwarg))
    /\ (SimpleValueSet.kw_expansion kwargs = None ->
        SimpleValueSet.__init__ now args kwargs = Raise ValidationError).
Proof.
  intros now args kwargs Hne. rewrite (init_positional now args kwargs Hne).
  destruct (SimpleValueSet.kw_expansion kwargs) as [e |].
  - split; [reflexivity |]. split; [reflexivity | discriminate].
  - split; [reflexivity |]. split; [| reflexivity].
    intros H. now destruct H.
Qed.

Lemma init_positional_never_returns_witness :
  returns_normally
    (SimpleValueSet.__init__ 0 [Sample.xA; Sample.xB] SimpleValueSet.no_kwargs)
  = false
  /\ (SimpleValueSet.kw_expansion SimpleValueSet.no_kwargs <> None ->
      SimpleValueSet.__init__ 0 [Sample.xA; Sample.xB] SimpleValueSet.no_kwargs
      = Raise (AssertionError SimpleValueSet.msg_expansion_kwarg))
  /\ (SimpleValueSet.kw_expansion SimpleValueSet.no_kwargs = None ->
      SimpleValueSet.__init__ 0 [Sample.xA; Sample.xB] SimpleValueSet.no_kwargs
      = Raise ValidationError).
Proof.
  apply (init_positional_never_returns 0 [Sample.xA; Sample.xB]
           SimpleValueSet.no_kwargs).
  discriminate.
Defined.

(** ** Validation of the include rule, and one-shot iterables *)

(** X22.  With [extend_compose=True], on a value set that has a composition,
    a concept whose system pydantic refuses makes [append], and as first
    concept of the batch [extend], fail with [ValidationError] before
    anything is changed: no include rule is added and the expansion is not
    touched. *)
Theorem refused_system_changes_nothing :
  forall (HttpUrl_valid : Uri -> bool) (now : dateTime) (self : ValueSet.t)
         (c : VSCompose.t) (code : VSCodingWithDesignation.t)
         (rest : list VSCodingWithDesignation.t) (init : bool),
    ValueSet.compose self = Some c ->
    system_accepted HttpUrl_valid (Coding.system code) = false ->
    ValueSet.append HttpUrl_valid now code true init self
    = (Raise ValidationError, self)
    /\ ValueSet.extend HttpUrl_valid now (code :: rest) true init self
       = (Raise ValidationError, self).
Proof.
  intros valid now [u n co ex tx] c code rest init Hco Hno.
  simpl in Hco. subst co.
  unfold ValueSet.append, ValueSet.extend, ValueSet.extend_iterable,
    ValueSet.compose_include_append, new_VSInclude.
  cbn [iterate]. unfold system_accepted in Hno.
  destruct (Coding.system code) as [s |]; [| discriminate].
  rewrite Hno. split; reflexivity.
Qed.

(** X22 at a system whose host has no top-level domain. *)
Lemma refused_system_changes_nothing_witness :
  ValueSet.append Sample.HttpUrl_valid 9 Sample.zA true true Sample.expanded
  = (Raise ValidationError, Sample.expanded)
  /\ ValueSet.extend Sample.HttpUrl_valid 9 (Sample.zA :: [Sample.xB]) true true
       Sample.expanded
     = (Raise ValidationError, Sample.expanded).
Proof.
  apply (refused_system_changes_nothing Sample.HttpUrl_valid 9 Sample.expanded
           Sample.no_rules Sample.zA [Sample.xB] true).
  - reflexivity.
  - reflexivity.
Defined.

(** X23.  [extend] on an iterator that can be consumed only once.  With
    [extend_compose=True] the unpacking of the first concept consumes it:
    the include rule that is added has the system of the first concept and
    an empty concept list, and nothing is added to the expansion.  With
    [extend_compose=False] the iterator is consumed by the extension of
    [contains] alone, and the call does what it does on the sequence of the
    same concepts. *)
Theorem extend_consumes_iterator :
  forall (HttpUrl_valid : Uri -> bool) (now : dateTime) (self : ValueSet.t)
         (c : VSCompose.t) (e : VSExpansion.t)
         (first_code : VSCodingWithDesignation.t)
         (rest : list VSCodingWithDesignation.t),
    ValueSet.compose self = Some c ->
    ValueSet.expansion self = Some e ->
    system_accepted HttpUrl_valid (Coding.system first_code) = true ->
    (exists V',
        ValueSet.extend_iterable HttpUrl_valid now (Iterator (first_code :: rest))
          true false self
        = (Return tt, V')
        /\ ValueSet.compose V'
           = Some (VSCompose.include_append c
                     (include_rule (Coding.system first_code) []))
        /\ ValueSet.__iter__ V' = (Return (VSExpansion.contains e), V'))
    /\ ValueSet.extend_iterable HttpUrl_valid now (Iterator (first_code :: rest))
         false false self
       = ValueSet.extend HttpUrl_valid now (first_code :: rest) false false self.
Proof.
  intros valid now [u n co ex tx] c e first_code rest Hco Hex Hok.
  simpl in Hco, Hex. subst co ex.
  split; [| reflexivity].
  unfold ValueSet.extend_iterable, ValueSet.compose_include_append,
    new_VSInclude, include_rule.
  cbn [iterate]. unfold system_accepted in Hok.
  destruct (Coding.system first_code) as [s |]; [rewrite Hok |];
    (eexists; split; [reflexivity |]; split; [reflexivity |];
     cbv -[app]; now rewrite app_nil_r).
Qed.

Lemma extend_consumes_iterator_witness :
  (exists V',
      ValueSet.extend_iterable Sample.HttpUrl_valid 9
        (Iterator (Sample.xB :: [Sample.xC])) true false Sample.expanded
      = (Return tt, V')
      /\ ValueSet.compose V'
         = Some (VSCompose.include_append Sample.no_rules
                   (include_rule (Coding.system Sample.xB) []))
      /\ ValueSet.__iter__ V'
         = (Return (VSExpansion.contains (VSExpansion.mk None None [Sample.xA] None 7)),
            V'))
  /\ ValueSet.extend_iterable Sample.HttpUrl_valid 9
       (Iterator (Sample.xB :: [Sample.xC])) false false Sample.expanded
     = ValueSet.extend Sample.HttpUrl_valid 9 (Sample.xB :: [Sample.xC])
         false false Sample.expanded.
Proof.
  apply (extend_consumes_iterator Sample.HttpUrl_valid 9 Sample.expanded
           Sample.no_rules (VSExpansion.mk None None [Sample.xA] None 7)
           Sample.xB [Sample.xC]).
  - reflexivity.
  - reflexivity.
  - reflexivity.
Defined.
